(** * Gesture recognition: static pose classifier, gesture buffer, dynamic matcher

    A shallow embedding of [src/lib/gesture-recognizer.ts] (orientation
    detector and static pose classifier with its embedded shake check) and of
    the dynamic-gesture module ([GestureBuffer], [recognizeDynamicGesture]).

    Conventions of the embedding:
    - a JavaScript [number] holding a coordinate is an IEEE-754 binary64
      value, Rocq's primitive [float]; decimal literals denote the nearest
      binary64 value, as in JavaScript;
    - small integer-valued numbers (direction signs, counters, capacities)
      are [Z] or [nat];
    - an array is a [list]; [a[i]] is [nth_error a i], where [None] stands
      for [undefined]; reading a property of [undefined] throws a
      [TypeError], which the [Result] type records;
    - the string-literal union [Gesture] is [string];
    - the module-level variables [prevLandmarks] and [verticalHistory] are
      the two fields of an explicit [State] threaded through the classifier. *)

From Stdlib Require Import String.
From Stdlib Require Import List ZArith Lia Bool Arith.
From Stdlib Require Import FloatClass PrimFloat SpecFloat FloatOps FloatAxioms.
From Stdlib Require Uint63.
Import ListNotations.

Set Warnings "-inexact-float".

Local Open Scope string_scope.
Local Open Scope list_scope.
Local Open Scope nat_scope.

(** ** Completion records: normal return or a thrown [TypeError] *)

Inductive Result (A : Type) : Type :=
| Ok (a : A)
| TypeError.
Arguments Ok {A} a.
Arguments TypeError {A}.

Definition bind {A B : Type} (r : Result A) (k : A -> Result B) : Result B :=
  match r with
  | Ok a => k a
  | TypeError => TypeError
  end.

Declare Scope js_scope.
Delimit Scope js_scope with js.
Notation "x <- r ;; k" := (bind r (fun x => k))
  (at level 61, r at next level, right associativity) : js_scope.
Local Open Scope js_scope.

(** [a && b] and [a || b] on fallible operands: the right operand is only
    evaluated (and can only throw) when the left one does not decide. *)
Definition andJ (a b : Result bool) : Result bool :=
  v <- a ;; if v then b else Ok false.
Definition orJ (a b : Result bool) : Result bool :=
  v <- a ;; if v then Ok true else b.
Definition notJ (a : Result bool) : Result bool :=
  v <- a ;; Ok (negb v).

(** ** JavaScript numbers *)

Module JS.

(** [Math.hypot(...args)]. ECMAScript leaves the result
    implementation-approximated; this is the algorithm of V8, the engine
    the program runs on. One pass records whether an argument is NaN and
    the largest absolute value [max] of the others (a NaN leaves its slot of
    the zeroed array of absolute values untouched). The result is +Infinity
    when [max] is infinite (also beside a NaN), else NaN when an argument is
    NaN, else 0 when [max] is 0. Otherwise the squares of the absolute
    values divided by [max] are added by Kahan summation, and the result is
    the square root of the sum multiplied by [max]. *)
Definition Math_hypot (args : list float) : float :=
  match args with
  | [] => 0%float
  | _ :: _ =>
      let oneArgIsNaN := existsb is_nan args in
      let absValues := map (fun value => if is_nan value then zero else abs value) args in
      let max :=
        fold_left (fun max value =>
                     if is_nan value then max
                     else if (max <? abs value)%float then abs value else max)
                  args zero in
      if (max =? infinity)%float then infinity
      else if oneArgIsNaN then nan
      else if (max =? 0)%float then 0%float
      else
        let kahan :=
          fold_left (fun (acc : float * float) absValue =>
                       let sum := fst acc in
                       let compensation := snd acc in
                       let n := (absValue / max)%float in
                       let summand := (n * n - compensation)%float in
                       let preliminary := (sum + summand)%float in
                       (preliminary, (preliminary - sum - summand)%float))
                    absValues (zero, zero) in
        (PrimFloat.sqrt (fst kahan) * max)%float
  end.

(** [Math.hypot(a, b)], the only form the program uses. *)
Definition hypot (a b : float) : float := Math_hypot [a; b].

(** [x > y] on numbers is [y < x]; false when either is NaN. *)
Definition gt (a b : float) : bool := (b <? a)%float.
Definition lt (a b : float) : bool := (a <? b)%float.

Definition is_neg_zero (f : float) : bool :=
  match classify f with NZero => true | _ => false end.
Definition is_pos_zero (f : float) : bool :=
  match classify f with PZero => true | _ => false end.

(** [Math.min(...l)] and [Math.max(...l)] (ECMAScript 21.3.2.24/25): NaN if
    any argument is NaN, otherwise the least (greatest) one, with -0 < +0;
    the empty spread gives +Infinity (-Infinity). *)
Definition Math_min (l : list float) : float :=
  if existsb is_nan l then nan
  else fold_left (fun lowest n =>
                    if is_neg_zero n && is_pos_zero lowest then n
                    else if (n <? lowest)%float then n else lowest)
                 l infinity.

Definition Math_max (l : list float) : float :=
  if existsb is_nan l then nan
  else fold_left (fun highest n =>
                    if is_pos_zero n && is_neg_zero highest then n
                    else if (highest <? n)%float then n else highest)
                 l neg_infinity.

(** A length used as a number in arithmetic. *)
Definition of_nat (n : nat) : float := of_uint63 (Uint63.of_Z (Z.of_nat n)).

(** [a.slice(-k)]: the last [k] elements, or all of [a] when it is shorter. *)
Definition slice_last {A : Type} (k : nat) (a : list A) : list A :=
  skipn (length a - k) a.

(** [a.slice(-i, -j)]: from index [max (len - i) 0] up to, excluding,
    index [max (len - j) 0]. *)
Definition slice_neg {A : Type} (i j : nat) (a : list A) : list A :=
  let from := length a - i in
  let to := length a - j in
  firstn (to - from) (skipn from a).

End JS.

(** ** Landmarks *)

(** [NormalizedLandmark] of the detector: the three coordinates read here. *)
Record NormalizedLandmark : Type := mkLandmark { x : float; y : float; z : float }.

(** A hand as the functions receive it: an array of landmarks (21 for a
    well-formed hand, but the functions do not check). *)
Definition Hand : Type := list NormalizedLandmark.
(** A frame: the hands detected in one tick. *)
Definition Frame : Type := list Hand.

(** [o.x] where [o] may be [undefined]. *)
Definition prop (f : NormalizedLandmark -> float) (o : option NormalizedLandmark)
  : Result float :=
  match o with
  | Some l => Ok (f l)
  | None => TypeError
  end.

Definition Gesture : Type := string.
Definition Orientation : Type := string.

(** The members of the declared union type [Gesture] (line 3 of
    gesture-recognizer.ts). *)
Definition Gesture_members : list Gesture :=
  ["A"; "B"; "C"; "D"; "E"; "F"; "G"; "H"; "I"; "J"; "K"; "L"; "M"; "N"; "O";
   "P"; "Q"; "R"; "S"; "T"; "U"; "V"; "W"; "X"; "Y"; "Z"; "6-7"; "NONE"].

(** ** src/lib/gesture-recognizer.ts *)

Module Static.

(** [checkOrientation]. The argument is [None] for a null/undefined
    array. *)
Definition checkOrientation (landmarks : option Hand) : Result Orientation :=
  match landmarks with
  | None => Ok "NONE"
  | Some lms =>
      if length lms =? 0 then Ok "NONE"
      else
        let wrist := nth_error lms 0 in
        let indexTip := nth_error lms 8 in
        tx <- prop x indexTip ;;
        wx <- prop x wrist ;;
        let dx := abs (tx - wx)%float in
        ty <- prop y indexTip ;;
        wy <- prop y wrist ;;
        let dy := abs (ty - wy)%float in
        if JS.gt dx dy then Ok "SIDE"
        else
          ty' <- prop y indexTip ;;
          wy' <- prop y wrist ;;
          if JS.lt ty' wy' then Ok "UP" else Ok "DOWN"
  end.

(** The two module-level variables (lines 6-7). *)
Record State : Type := mkState {
  prevLandmarks : option Hand;
  verticalHistory : list Z   (* dy signs: -1 = up, +1 = down *)
}.

(** The module as loaded: [prevLandmarks = null], [verticalHistory = []]. *)
Definition initial : State := mkState None [].

(** [dist] (line 61). Either operand may be [undefined]. *)
Definition dist (a b : option NormalizedLandmark) : Result float :=
  ax <- prop x a ;;
  bx <- prop x b ;;
  ay <- prop y a ;;
  by' <- prop y b ;;
  Ok (JS.hypot (ax - bx) (ay - by')).

(** [isExtended] (line 64); [wrist] is the variable it closes over. *)
Definition isExtended (wrist tip pip : option NormalizedLandmark) : Result bool :=
  dt <- dist tip wrist ;;
  dp <- dist pip wrist ;;
  Ok (JS.gt dt dp).

(** [isThumbExtended] (line 67). *)
Definition isThumbExtended (thumbTip thumbIp indexMcp : option NormalizedLandmark)
  : Result bool :=
  dt <- dist thumbTip indexMcp ;;
  di <- dist thumbIp indexMcp ;;
  Ok (JS.gt dt di).

(** The constants of lines 70-79, in evaluation order. *)
Record Fingers : Type := mkFingers {
  thumbOpen : bool;
  indexOpen : bool;
  middleOpen : bool;
  ringOpen : bool;
  pinkyOpen : bool;
  dThumbIndex : float;
  dThumbMiddle : float;
  dIndexMiddle : float
}.

Definition fingerStates (lms : Hand) : Result Fingers :=
  let wrist := nth_error lms 0 in
  let thumbIp := nth_error lms 3 in
  let thumbTip := nth_error lms 4 in
  let indexMcp := nth_error lms 5 in
  let indexPip := nth_error lms 6 in
  let indexTip := nth_error lms 8 in
  let middlePip := nth_error lms 10 in
  let middleTip := nth_error lms 12 in
  let ringPip := nth_error lms 14 in
  let ringTip := nth_error lms 16 in
  let pinkyPip := nth_error lms 18 in
  let pinkyTip := nth_error lms 20 in
  thumbOpen <- isThumbExtended thumbTip thumbIp indexMcp ;;
  indexOpen <- isExtended wrist indexTip indexPip ;;
  middleOpen <- isExtended wrist middleTip middlePip ;;
  ringOpen <- isExtended wrist ringTip ringPip ;;
  pinkyOpen <- isExtended wrist pinkyTip pinkyPip ;;
  dThumbIndex <- dist thumbTip indexTip ;;
  dThumbMiddle <- dist thumbTip middleTip ;;
  dIndexMiddle <- dist indexTip middleTip ;;
  Ok (mkFingers thumbOpen indexOpen middleOpen ringOpen pinkyOpen
                dThumbIndex dThumbMiddle dIndexMiddle).

(** Lines 83-105: the new value of [verticalHistory]. Every property read
    that can throw happens before the push, so a [TypeError] leaves the
    history as it was. The [motion] object of line 90 is never read. *)
Definition updateHistory (wrist : option NormalizedLandmark) (st : State)
  : Result (list Z) :=
  match prevLandmarks st with
  | None => Ok (verticalHistory st)
  | Some prev =>
      let prevWrist := nth_error prev 0 in
      wx <- prop x wrist ;;
      px <- prop x prevWrist ;;
      let dx := (wx - px)%float in
      wy <- prop y wrist ;;
      py <- prop y prevWrist ;;
      let dy := (wy - py)%float in
      wz <- prop z wrist ;;
      pz <- prop z prevWrist ;;
      let dz := (wz - pz)%float in
      let verticalDir := 0%Z in
      let verticalDir := if JS.lt dy (-0.02) then (-1)%Z else verticalDir in
      let verticalDir := if JS.gt dy 0.02 then 1%Z else verticalDir in
      if negb (verticalDir =? 0)%Z then
        let pushed := verticalHistory st ++ [verticalDir] in
        if 20 <? length pushed then Ok (tl pushed) else Ok pushed
      else Ok (verticalHistory st)
  end.

(** The loop of lines 111-115: [i] runs from 1 to [length - 1]. *)
Definition directionChanges (h : list Z) : nat :=
  fold_left
    (fun changes i =>
       if negb (nth i h 0 =? nth (i - 1) h 0)%Z then S changes else changes)
    (seq 1 (length h - 1)) 0.

(** [dist(a, b) < t]. *)
Definition near (a b : option NormalizedLandmark) (t : float) : Result bool :=
  d <- dist a b ;; Ok (JS.lt d t).

(** Lines 125-267, the letter branches. [Some g] is [return g]; [None] is
    falling through to line 269. *)
Definition letterBranches (lms : Hand) (orientation : Orientation) (f : Fingers)
  : Result (option Gesture) :=
  let thumbTip := nth_error lms 4 in
  let indexMcp := nth_error lms 5 in
  let indexPip := nth_error lms 6 in
  let indexDip := nth_error lms 7 in
  let indexTip := nth_error lms 8 in
  let middleMcp := nth_error lms 9 in
  let middlePip := nth_error lms 10 in
  let middleTip := nth_error lms 12 in
  let ringPip := nth_error lms 14 in
  let pinkyPip := nth_error lms 18 in
  let thumbOpen := thumbOpen f in
  let indexOpen := indexOpen f in
  let middleOpen := middleOpen f in
  let ringOpen := ringOpen f in
  let pinkyOpen := pinkyOpen f in
  (* 1. Fist / curled fingers group *)
  if negb indexOpen && negb middleOpen && negb ringOpen && negb pinkyOpen then
    if thumbOpen then Ok (Some "A")
    else
      t <- orJ (near thumbTip indexPip 0.05) (near thumbTip indexMcp 0.05) ;;
      if t then Ok (Some "T")
      else
        n <- orJ (near thumbTip middlePip 0.05) (near thumbTip middleMcp 0.05) ;;
        if n then Ok (Some "N")
        else
          m <- orJ (near thumbTip ringPip 0.05) (near thumbTip pinkyPip 0.05) ;;
          if m then Ok (Some "M")
          else
            s <- near thumbTip indexDip 0.05 ;;
            if s then Ok (Some "S") else Ok (Some "E")
  (* 2. Index only group *)
  else if indexOpen && negb middleOpen && negb ringOpen && negb pinkyOpen then
    if thumbOpen then
      if String.eqb orientation "SIDE" then Ok (Some "G") else Ok (Some "L")
    else if String.eqb orientation "DOWN" then
      if thumbOpen then Ok (Some "Q") else Ok (Some "Z")
    else if String.eqb orientation "SIDE" then Ok (Some "G")
    else
      hooked <- near indexTip indexPip 0.08 ;;
      if hooked then Ok (Some "X") else Ok (Some "D")
  (* 3. Index + middle group *)
  else if indexOpen && middleOpen && negb ringOpen && negb pinkyOpen then
    if String.eqb orientation "DOWN" then Ok (Some "P")
    else if String.eqb orientation "SIDE" then Ok (Some "H")
    else
      together <- near indexTip middleTip 0.03 ;;
      if together then Ok (Some "U")
      else
        k <- near thumbTip middlePip 0.06 ;;
        if k then Ok (Some "K") else Ok (Some "V")
  (* 4. Three fingers *)
  else if indexOpen && middleOpen && ringOpen && negb pinkyOpen then Ok (Some "W")
  (* 5. Pinky *)
  else if negb indexOpen && negb middleOpen && negb ringOpen && pinkyOpen then
    if thumbOpen then Ok (Some "Y") else Ok (Some "I")
  (* 6. Open hand / C / O / F *)
  else if negb indexOpen && middleOpen && ringOpen && pinkyOpen then Ok (Some "F")
  else
    f2 <- (if middleOpen && ringOpen && pinkyOpen
           then near thumbTip indexTip 0.06 else Ok false) ;;
    if f2 then Ok (Some "F")
    else
      o <- andJ (near thumbTip indexTip 0.06) (near thumbTip middleTip 0.06) ;;
      if o then Ok (Some "O")
      else if indexOpen && middleOpen && ringOpen && pinkyOpen then
        if JS.gt (dThumbIndex f) 0.05 && JS.lt (dThumbIndex f) 0.25
        then Ok (Some "C") else Ok (Some "B")
      else Ok None.

(** [recognizeGesture] (lines 28-271): the returned label, or the thrown
    [TypeError], together with the module state after the call. *)
Definition recognizeGesture (landmarks : option Hand) (st : State)
  : Result Gesture * State :=
  match landmarks with
  | None => (Ok "NONE", st)
  | Some lms =>
      if length lms =? 0 then (Ok "NONE", st)
      else
        match (orientation <- checkOrientation landmarks ;;
               f <- fingerStates lms ;;
               h <- updateHistory (nth_error lms 0) st ;;
               Ok (orientation, f, h)) with
        | TypeError => (TypeError, st)
        | Ok (orientation, f, h) =>
            let st1 := mkState (prevLandmarks st) h in
            if (6 <? length h) && (4 <=? directionChanges h) then
              (* verticalHistory = []; prevLandmarks = landmarks; return "6-7" *)
              (Ok "6-7", mkState (Some lms) [])
            else
              match letterBranches lms orientation f with
              | TypeError => (TypeError, st1)
              | Ok (Some g) => (Ok g, st1)
              | Ok None =>
                  (* prevLandmarks = landmarks; return "NONE" *)
                  (Ok "NONE", mkState (Some lms) h)
              end
        end
  end.

End Static.

(** ** The dynamic-gesture module: [GestureBuffer] and [recognizeDynamicGesture] *)

(** Array methods whose callback can throw: the callback runs on the
    elements from left to right and the first throw aborts the call. *)
Fixpoint someJ {A : Type} (p : A -> Result bool) (a : list A) : Result bool :=
  match a with
  | [] => Ok false
  | e :: rest => v <- p e ;; if v then Ok true else someJ p rest
  end.

Fixpoint filterJ {A : Type} (p : A -> Result bool) (a : list A) : Result (list A) :=
  match a with
  | [] => Ok []
  | e :: rest =>
      v <- p e ;;
      kept <- filterJ p rest ;;
      Ok (if v then e :: kept else kept)
  end.

Fixpoint findJ {A : Type} (p : A -> Result bool) (a : list A) : Result (option A) :=
  match a with
  | [] => Ok None
  | e :: rest => v <- p e ;; if v then Ok (Some e) else findJ p rest
  end.

Fixpoint mapJ {A B : Type} (f : A -> Result B) (a : list A) : Result (list B) :=
  match a with
  | [] => Ok []
  | e :: rest => v <- f e ;; vs <- mapJ f rest ;; Ok (v :: vs)
  end.

(** A [for (const e of a)] loop whose body updates an accumulator. *)
Fixpoint forOf {A S : Type} (body : S -> A -> Result S) (a : list A) (acc : S)
  : Result S :=
  match a with
  | [] => Ok acc
  | e :: rest => acc' <- body acc e ;; forOf body rest acc'
  end.

Module Dynamic.

(** [class GestureBuffer]: the two fields. *)
Record GestureBuffer : Type := mkBuffer {
  buffer : list Frame;
  maxSize : Z
}.

(** [constructor(maxSize = 30)]; [None] is the omitted argument. *)
Definition new_GestureBuffer (maxSize : option Z) : GestureBuffer :=
  mkBuffer [] (match maxSize with Some m => m | None => 30%Z end).

(** [add]: push, then shift once if the length exceeds [maxSize]. *)
Definition add (landmarks : Frame) (b : GestureBuffer) : GestureBuffer :=
  let pushed := buffer b ++ [landmarks] in
  if (maxSize b <? Z.of_nat (length pushed))%Z
  then mkBuffer (tl pushed) (maxSize b)
  else mkBuffer pushed (maxSize b).

Definition getBuffer (b : GestureBuffer) : list Frame := buffer b.

Definition clear (b : GestureBuffer) : GestureBuffer := mkBuffer [] (maxSize b).

(** Helpers of [recognizeDynamicGesture] (lines 259-282). *)
Definition dist (a b : option NormalizedLandmark) : Result float :=
  ax <- prop x a ;;
  bx <- prop x b ;;
  ay <- prop y a ;;
  by' <- prop y b ;;
  Ok (JS.hypot (ax - bx) (ay - by')).

Definition isExtended (tip pip wrist : option NormalizedLandmark) : Result bool :=
  dt <- dist tip wrist ;;
  dp <- dist pip wrist ;;
  Ok (JS.gt dt dp).

Definition checkYShape (landmarks : Hand) : Result bool :=
  let l i := nth_error landmarks i in
  thumbOpen <- isExtended (l 4) (l 2) (l 0) ;;
  pinkyOpen <- isExtended (l 20) (l 18) (l 0) ;;
  indexClosed <- notJ (isExtended (l 8) (l 6) (l 0)) ;;
  middleClosed <- notJ (isExtended (l 12) (l 10) (l 0)) ;;
  ringClosed <- notJ (isExtended (l 16) (l 14) (l 0)) ;;
  Ok (thumbOpen && pinkyOpen && indexClosed && middleClosed && ringClosed).

(** [a.y < b.y]. *)
Definition above (a b : option NormalizedLandmark) : Result bool :=
  ay <- prop y a ;; by' <- prop y b ;; Ok (JS.lt ay by').

Definition checkOpenHand (landmarks : Hand) : Result bool :=
  let l i := nth_error landmarks i in
  andJ (andJ (andJ (above (l 8) (l 5)) (above (l 12) (l 9)))
             (above (l 16) (l 13)))
       (above (l 20) (l 17)).

Definition isFist (l : Hand) : Result bool :=
  let g i := nth_error l i in
  andJ (andJ (andJ (notJ (isExtended (g 8) (g 6) (g 0)))
                   (notJ (isExtended (g 12) (g 10) (g 0))))
             (notJ (isExtended (g 16) (g 14) (g 0))))
       (notJ (isExtended (g 20) (g 18) (g 0))).

Definition isFlat (l : Hand) : Result bool :=
  let g i := nth_error l i in
  andJ (andJ (andJ (isExtended (g 8) (g 6) (g 0))
                   (isExtended (g 12) (g 10) (g 0)))
             (isExtended (g 16) (g 14) (g 0)))
       (isExtended (g 20) (g 18) (g 0)).

Definition isPointing (l : Hand) : Result bool :=
  let g i := nth_error l i in
  andJ (andJ (andJ (isExtended (g 8) (g 6) (g 0))
                   (notJ (isExtended (g 12) (g 10) (g 0))))
             (notJ (isExtended (g 16) (g 14) (g 0))))
       (notJ (isExtended (g 20) (g 18) (g 0))).

(** The loop of lines 311-320 (and again 350-357): the number of direction
    changes of a trace, with [lastDir] the last direction seen. *)
Definition reversalStep (vals : list float) (acc : nat * Z) (i : nat) : nat * Z :=
  let '(directionChanges, lastDir) := acc in
  let d := (nth i vals zero - nth (i - 1) vals zero)%float in
  if JS.gt (abs d) 0.005 then
    let dir := if JS.gt d 0 then 1%Z else (-1)%Z in
    (if negb (lastDir =? 0)%Z && negb (dir =? lastDir)%Z
     then S directionChanges else directionChanges, dir)
  else (directionChanges, lastDir).

Definition countDirectionChanges (vals : list float) : nat :=
  fst (fold_left (reversalStep vals) (seq 1 (length vals - 1)) (0, 0%Z)).

(** The callback of line 289: the frame has at least one open hand. *)
Definition hasOpenHand (f : Frame) : Result bool := someJ checkOpenHand f.

(** Line 289: the number of recent frames with at least one open hand. *)
Definition openHandCount (recentFramesForHello : list Frame) : Result nat :=
  kept <- filterJ hasOpenHand recentFramesForHello ;;
  Ok (length kept).

(** The body of the loop of lines 298-304: push the wrist X of the first
    open hand of the frame, if it has one. *)
Definition pushWristX (wristXs : list float) (frame : Frame) : Result (list float) :=
  openHandsInFrame <- filterJ checkOpenHand frame ;;
  match openHandsInFrame with
  | first :: _ => wx <- prop x (nth_error first 0) ;; Ok (wristXs ++ [wx])
  | [] => Ok wristXs
  end.

Definition collectWristXs (recentFramesForHello : list Frame)
  : Result (list float) :=
  forOf pushWristX recentFramesForHello [].

(** 1. HELLO (lines 285-330): [true] is [return "HELLO"]. *)
Definition detectHello (frames : list Frame) : Result bool :=
  let recentFramesForHello := JS.slice_last 20 frames in
  openHandCount <- openHandCount recentFramesForHello ;;
  if 14 <? openHandCount then
    wristXs <- collectWristXs recentFramesForHello ;;
    if 10 <? length wristXs then
      let directionChanges := countDirectionChanges wristXs in
      let minX := JS.Math_min wristXs in
      let maxX := JS.Math_max wristXs in
      Ok ((2 <=? directionChanges) && JS.gt (maxX - minX) 0.1)
    else Ok false
  else Ok false.

(** 2. YES (lines 332-366). *)
Definition detectYes (frames : list Frame) (currentFrame : Frame) : Result bool :=
  yHand <- findJ checkYShape currentFrame ;;
  match yHand with
  | None => Ok false
  | Some _ =>
      yHandHistory <-
        forOf (fun hist frame =>
                 foundYHand <- findJ checkYShape frame ;;
                 match foundYHand with
                 | Some h => Ok (hist ++ [h])
                 | None => Ok hist
                 end)
              (JS.slice_last 15 frames) [] ;;
      if 8 <? length yHandHistory then
        wristYs <- mapJ (fun h : Hand => prop y (nth_error h 0)) yHandHistory ;;
        wristXs <- mapJ (fun h : Hand => prop x (nth_error h 0)) yHandHistory ;;
        let directionChanges := countDirectionChanges wristYs in
        let rangeY := (JS.Math_max wristYs - JS.Math_min wristYs)%float in
        let rangeX := (JS.Math_max wristXs - JS.Math_min wristXs)%float in
        Ok ((2 <=? directionChanges) && JS.gt rangeY 0.1
            && JS.gt rangeY (rangeX * 1.5)%float)
      else Ok false
  end.

Definition isTapPose (landmarks : Hand) : Result bool :=
  let l i := nth_error landmarks i in
  dThumbIndex <- dist (l 4) (l 8) ;;
  dThumbMiddle <- dist (l 4) (l 12) ;;
  Ok (JS.lt dThumbIndex 0.05 && JS.lt dThumbMiddle 0.05).

(** The callback of lines 380-384. *)
Definition fingersApart (h : Hand) : Result bool :=
  dTI <- dist (nth_error h 4) (nth_error h 8) ;;
  dTM <- dist (nth_error h 4) (nth_error h 12) ;;
  Ok (JS.gt dTI 0.1 && JS.gt dTM 0.1).

(** 3. NO (lines 368-389). *)
Definition detectNo (frames : list Frame) (currentFrame : Frame) : Result bool :=
  tapHand <- findJ isTapPose currentFrame ;;
  match tapHand with
  | None => Ok false
  | Some _ => someJ (fun f => someJ fingersApart f) (JS.slice_neg 15 5 frames)
  end.

(** Lines 411-427: one average Y per recent frame. *)
Definition averageY (frame : Frame) : Result float :=
  if 2 <=? length frame then
    currentFist <- findJ isFist frame ;;
    currentFlat <- findJ isFlat frame ;;
    match currentFist, currentFlat with
    | Some fist, Some flat =>
        fy <- prop y (nth_error fist 0) ;;
        ly <- prop y (nth_error flat 0) ;;
        Ok ((fy + ly) / 2)%float
    | _, _ =>
        total <- forOf (fun sum (h : Hand) =>
                          hy <- prop y (nth_error h 0) ;; Ok (sum + hy)%float)
                       frame zero ;;
        Ok (total / JS.of_nat (length frame))%float
    end
  else if length frame =? 1 then
    match nth_error frame 0 with
    | Some h => prop y (nth_error h 0)
    | None => TypeError
    end
  else Ok 1%float.

(** 4. HELP (lines 391-439). *)
Definition detectHelp (frames : list Frame) (currentFrame : Frame) : Result bool :=
  if 2 <=? length currentFrame then
    match nth_error currentFrame 0, nth_error currentFrame 1 with
    | Some hand1, Some hand2 =>
        c1 <- andJ (isFist hand1) (isFlat hand2) ;;
        pair <- (if c1 then Ok (Some (hand1, hand2))
                 else
                   c2 <- andJ (isFist hand2) (isFlat hand1) ;;
                   Ok (if c2 then Some (hand2, hand1) else None)) ;;
        match pair with
        | Some (fistHand, flatHand) =>
            dProximity <- dist (nth_error fistHand 0) (nth_error flatHand 9) ;;
            if JS.lt dProximity 0.15 then
              avgYs <- mapJ averageY (JS.slice_last 10 frames) ;;
              if 5 <? length avgYs then
                let startY := nth 0 avgYs zero in
                let endY := nth (length avgYs - 1) avgYs zero in
                Ok (JS.gt (startY - endY) 0.1)
              else Ok false
            else Ok false
        | None => Ok false
        end
    | _, _ => TypeError
    end
  else Ok false.

(** 5. TIME (lines 441-460). *)
Definition detectTime (currentFrame : Frame) : Result bool :=
  if 2 <=? length currentFrame then
    match nth_error currentFrame 0, nth_error currentFrame 1 with
    | Some hand1, Some hand2 =>
        p1 <- isPointing hand1 ;;
        pair <- (if p1 then Ok (Some (hand1, hand2))
                 else
                   p2 <- isPointing hand2 ;;
                   Ok (if p2 then Some (hand2, hand1) else None)) ;;
        match pair with
        | Some (pointerHand, targetHand) =>
            dTouch <- dist (nth_error pointerHand 8) (nth_error targetHand 0) ;;
            Ok (JS.lt dTouch 0.1)
        | None => Ok false
        end
    | _, _ => TypeError
    end
  else Ok false.

(** [recognizeDynamicGesture] (lines 251-463); [None] is [null]. *)
Definition recognizeDynamicGesture (b : GestureBuffer) : Result (option string) :=
  let frames := getBuffer b in
  if length frames <? 5 then Ok None
  else
    match nth_error frames (length frames - 1) with
    | None => TypeError
    | Some currentFrame =>
        if length currentFrame =? 0 then Ok None
        else
          hello <- detectHello frames ;;
          if hello then Ok (Some "HELLO")
          else
            yes <- detectYes frames currentFrame ;;
            if yes then Ok (Some "YES")
            else
              no <- detectNo frames currentFrame ;;
              if no then Ok (Some "NO")
              else
                help <- detectHelp frames currentFrame ;;
                if help then Ok (Some "HELP")
                else
                  time <- detectTime currentFrame ;;
                  if time then Ok (Some "TIME") else Ok None
    end.

End Dynamic.

(** ** Concrete hands and frames used by the examples below *)

Module Samples.

(** Offsets from the wrist of the four joints (MCP, PIP, DIP, TIP) of a
    finger standing in column [cx], straight or curled. *)
Definition finger (cx : float) (straight : bool) : list (float * float) :=
  [(cx, -0.20); (cx, -0.30);
   (cx, if straight then -0.35 else -0.28);
   (cx, if straight then -0.40 else -0.22)]%float.

(** A 21-landmark hand with its wrist at [(wx, wy)], the thumb tip at the
    given offset, and each finger straight or curled. *)
Definition mkHand (wx wy : float) (thumbTip : float * float)
           (i m r p : bool) : Hand :=
  mkLandmark wx wy 0 ::
  map (fun o : float * float => mkLandmark (wx + fst o) (wy + snd o) 0)
      ([(-0.08, -0.05); (-0.12, -0.10); (-0.15, -0.15); thumbTip]%float
       ++ finger (-0.05) i ++ finger 0 m ++ finger 0.05 r ++ finger 0.10 p).

Definition thumbOut : float * float := (-0.18, -0.20)%float.

(** A fist with the thumb out. *)
Definition fistThumbOut : Hand := mkHand 0.5 0.9 thumbOut false false false false.

(** Four straight fingers, thumb tip between the index and middle tips. *)
Definition pinchedOpen : Hand := mkHand 0.5 0.9 (-0.03, -0.40)%float true true true true.

(** Only the middle finger straight, thumb out, wrist at height [wy]. *)
Definition middleOnly (wy : float) : Hand := mkHand 0.5 wy thumbOut false true false false.

(** Only the ring finger straight, thumb tip touching the curled index and
    middle tips. *)
Definition ringOnlyPinched : Hand :=
  mkHand 0.5 0.9 (-0.03, -0.22)%float false false true false.

(** An open hand (four straight fingers, thumb out) with its wrist at
    [(wx, 0.9)]. *)
Definition openAt (wx : float) : Hand := mkHand wx 0.9 thumbOut true true true true.

(** Frame [i] of a wave: one open hand whose wrist alternates between
    x = 0.3 and x = 0.5. *)
Definition waveFrame (i : nat) : Frame :=
  [openAt (if Nat.even i then 0.3 else 0.5)%float].

Definition waveFrames (n : nat) : list Frame := map waveFrame (seq 0 n).

(** 20 frames, all waving. *)
Definition wave20 : Dynamic.GestureBuffer := Dynamic.mkBuffer (waveFrames 20) 30.

(** 20 frames of which exactly 14 (70%) show the waving hand. *)
Definition wave14of20 : Dynamic.GestureBuffer :=
  Dynamic.mkBuffer (repeat [] 6 ++ waveFrames 14) 30.

(** 19 waving frames followed by a frame without hands. *)
Definition wave19thenEmpty : Dynamic.GestureBuffer :=
  Dynamic.mkBuffer (waveFrames 19 ++ [[]]) 30.

End Samples.

(** ** Sequences of buffer operations *)

Module BufferOps.
Import Dynamic.

(** One call on a buffer: [add(frame)] or [clear()]. *)
Inductive Op : Type :=
| Add (frame : Frame)
| Clear.

Definition step (b : GestureBuffer) (o : Op) : GestureBuffer :=
  match o with
  | Add frame => add frame b
  | Clear => clear b
  end.

Definition run (ops : list Op) (b : GestureBuffer) : GestureBuffer :=
  fold_left step ops b.

(** The frames added since the last [clear()], oldest first. *)
Definition sinceClear (ops : list Op) : list Frame :=
  fold_left (fun added o =>
               match o with
               | Add frame => added ++ [frame]
               | Clear => []
               end) ops [].

End BufferOps.

(** ** Notions of the specification *)

(** The orientation of a hand whose wrist and index fingertip are given. *)
Definition orientationOf (wrist indexTip : NormalizedLandmark) : Orientation :=
  let dx := abs (x indexTip - x wrist) in
  let dy := abs (y indexTip - y wrist) in
  if JS.gt dx dy then "SIDE"
  else if JS.lt (y indexTip) (y wrist) then "UP" else "DOWN".

(** The letters some branch of the classifier returns. *)
Definition produced : list Gesture :=
  ["A"; "T"; "N"; "M"; "S"; "E"; "G"; "L"; "Z"; "X"; "D"; "P"; "H"; "U"; "K";
   "V"; "W"; "Y"; "I"; "F"; "O"; "C"; "B"].

(** The history after the motion update, in the words of the
    specification: a sign is appended when the wrist moved by more than 0.02
    vertically, and only the 20 most recent signs are kept. *)
Definition appendSign (hist : list Z) (dy : float) : list Z :=
  if JS.lt dy (-0.02) then hist ++ [(-1)%Z]
  else if JS.gt dy 0.02 then hist ++ [1%Z]
  else hist.

Definition nextHistory (hist : list Z) (dy : float) : list Z :=
  JS.slice_last 20 (appendSign hist dy).

(** The number of adjacent pairs of a history that differ. *)
Fixpoint signChanges (h : list Z) : nat :=
  match h with
  | a :: (b :: _) as rest => (if (a =? b)%Z then 0 else 1) + signChanges rest
  | _ => 0
  end.

(** The shake test of lines 108-118 on the updated history. *)
Definition shakes (h : list Z) : bool := (6 <? length h) && (4 <=? signChanges h).

(** Direction reversals of a trace, in the words of the specification: a
    step counts when it is larger than 0.005 in absolute value and its sign
    differs from that of the previous such step. *)
Fixpoint reversalsFrom (lastDir : Z) (prev : float) (vals : list float) : nat :=
  match vals with
  | [] => 0
  | cur :: rest =>
      let d := (cur - prev)%float in
      if JS.gt (abs d) 0.005 then
        let dir := if JS.gt d 0 then 1%Z else (-1)%Z in
        (if negb (lastDir =? 0)%Z && negb (dir =? lastDir)%Z then 1 else 0)
        + reversalsFrom dir cur rest
      else reversalsFrom lastDir cur rest
  end.

Definition reversals (vals : list float) : nat :=
  match vals with
  | [] => 0
  | first :: rest => reversalsFrom 0 first rest
  end.

(** A run of the classifier: the module state after the given calls. *)
Definition stateAfter (inputs : list (option Hand)) (st : Static.State) : Static.State :=
  fold_left (fun s landmarks => snd (Static.recognizeGesture landmarks s)) inputs st.

(** The state invariant: the remembered frame, if any, is a non-empty array
    and the history holds at most 20 signs. *)
Definition wellFormed (st : Static.State) : Prop :=
  Static.prevLandmarks st <> Some [] /\ length (Static.verticalHistory st) <= 20.

(** ** The classifier of the dynamic-gesture file *)

Module Stateless.

(** [checkOrientation] of the dynamic-gesture file (its lines 6-23): the
    same text as lines 9-26 of gesture-recognizer.ts. *)
Definition checkOrientation (landmarks : option Hand) : Result Orientation :=
  Static.checkOrientation landmarks.

(** [recognizeGesture] of the dynamic-gesture file (its lines 25-223). Its
    text is that of gesture-recognizer.ts without the motion block (lines
    81-123 there) and without the final assignment to [prevLandmarks]: the
    orientation, the finger states of lines 67-76 and the letter branches of
    lines 78-220, then [return "NONE"]. *)
Definition recognizeGesture (landmarks : option Hand) : Result Gesture :=
  match landmarks with
  | None => Ok "NONE"
  | Some lms =>
      if length lms =? 0 then Ok "NONE"
      else
        orientation <- checkOrientation landmarks ;;
        f <- Static.fingerStates lms ;;
        r <- Static.letterBranches lms orientation f ;;
        Ok (match r with Some g => g | None => "NONE" end)
  end.

End Stateless.

(** ** The hand-tracking loop of ActionGame *)

Module ActionGame.

(** What the loop keeps between ticks: [gestureBufferRef.current] and the
    [detectedAction] state. *)
Record Tracking : Type := mkTracking {
  gestureBuffer : Dynamic.GestureBuffer;
  detectedAction : string
}.

(** [useRef(new GestureBuffer(30))] and [useState("NONE")]. *)
Definition initial : Tracking :=
  mkTracking (Dynamic.new_GestureBuffer (Some 30%Z)) "NONE".

(** The dynamic-recognition block of [predictWebcam] (lines 168-174 of the
    ActionGame component) for the landmarks of one detection result: a frame
    with at least one hand is added to the buffer and matched, and a truthy
    match (a non-empty string) replaces [detectedAction]. A [TypeError]
    leaves the loop after the frame was added. *)
Definition onLandmarks (landmarks : Frame) (s : Tracking) : Result unit * Tracking :=
  if 0 <? length landmarks then
    let b := Dynamic.add landmarks (gestureBuffer s) in
    match Dynamic.recognizeDynamicGesture b with
    | TypeError => (TypeError, mkTracking b (detectedAction s))
    | Ok (Some dynamic) =>
        if String.eqb dynamic "" then (Ok tt, mkTracking b (detectedAction s))
        else (Ok tt, mkTracking b dynamic)
    | Ok None => (Ok tt, mkTracking b (detectedAction s))
    end
  else (Ok tt, s).

(** The tracking state after the given detection results, as long as no
    tick throws (a throw ends the loop: the next frame is never requested). *)
Fixpoint run (results : list Frame) (s : Tracking) : Tracking :=
  match results with
  | [] => s
  | landmarks :: rest =>
      match onLandmarks landmarks s with
      | (Ok _, s') => run rest s'
      | (TypeError, s') => s'
      end
  end.

End ActionGame.

(** ** Further notions *)

(** The invariant of the classifier's module state: the remembered frame,
    if any, has at least 21 landmarks; the history holds at most 20 entries,
    each of them -1 or +1. *)
Definition stateInvariant (st : Static.State) : Prop :=
  match Static.prevLandmarks st with
  | None => True
  | Some prev => 21 <= length prev
  end
  /\ length (Static.verticalHistory st) <= 20
  /\ Forall (fun s => s = (-1)%Z \/ s = 1%Z) (Static.verticalHistory st).

(** The extended-finger patterns (index, middle, ring, pinky) that none of
    the seven finger groups of the classifier lists. *)
Definition unlistedPatterns : list (bool * bool * bool * bool) :=
  [(false, true, false, false); (false, false, true, false);
   (false, true, true, false); (true, false, true, false);
   (false, true, false, true); (false, false, true, true);
   (true, false, false, true); (true, true, false, true);
   (true, false, true, true)].

(** Every hand of the frame has at least 21 landmarks. *)
Definition wellFormedFrame (frame : Frame) : Prop :=
  forall h : Hand, In h frame -> 21 <= length h.

(** Every hand of every frame has at least 21 landmarks. *)
Definition wellFormedFrames (frames : list Frame) : Prop :=
  forall frame : Frame, In frame frames -> wellFormedFrame frame.

(** The extended-finger pattern (index, middle, ring, pinky) of a hand, by
    [isExtended] as lines 71-74 call it. *)
Definition fingerPattern (lms : Hand) : Result (bool * bool * bool * bool) :=
  let l i := nth_error lms i in
  i <- Static.isExtended (l 0) (l 8) (l 6) ;;
  m <- Static.isExtended (l 0) (l 12) (l 10) ;;
  r <- Static.isExtended (l 0) (l 16) (l 14) ;;
  p <- Static.isExtended (l 0) (l 20) (l 18) ;;
  Ok (i, m, r, p).

(** ** Further sample frames *)

Module MoreSamples.

(** A pointing hand (index only) with its wrist at (0.5, 0.9) and a fist
    whose wrist lies on the pointing index fingertip. *)
Definition touchFrame : Frame :=
  [Samples.mkHand 0.5 0.9 Samples.thumbOut true false false false;
   Samples.mkHand 0.45 0.5 Samples.thumbOut false false false false].

Definition touching : Dynamic.GestureBuffer :=
  Dynamic.mkBuffer (repeat touchFrame 5) 30.

(** A hand cut down to 5 landmarks. *)
Definition stump : Hand := firstn 5 Samples.fistThumbOut.

End MoreSamples.

(** * Properties *)

(** ** Tactics *)

(** Case analysis on the first undecided test of a chain of early returns. *)
Ltac split_result H :=
  match type of H with
  | context [bind ?r _] =>
      lazymatch r with
      | context [bind _ _] => fail
      | context [if _ then _ else _] => fail
      | Ok _ => fail
      | _ => destruct r; cbn [bind] in H
      end
  | context [if ?c then _ else _] =>
      lazymatch c with
      | context [if _ then _ else _] => fail
      | _ => destruct c; cbn [bind] in H
      end
  end.

Ltac hand_cbn H :=
  cbn [bind prop nth_error andJ orJ notJ
       Static.dist Static.near Static.isExtended Static.isThumbExtended
       Static.thumbOpen Static.indexOpen Static.middleOpen Static.ringOpen
       Static.pinkyOpen Static.dThumbIndex negb andb] in H.

Ltac destruct_hand lms Hlen :=
  do 21 (destruct lms as [|? lms]; [simpl in Hlen; lia|]); clear Hlen.


(** ** [Math.hypot] *)

(** Values of [Math.hypot] that separate the engine's algorithm from a
    plain [sqrt (a*a + b*b)]: the last bit of the result, no overflow or
    underflow of the squares, and +Infinity taking precedence over NaN. *)
Example hypot_values :
  JS.hypot 0.01 0.01 = 0.014142135623730952%float /\
  PrimFloat.sqrt (0.01 * 0.01 + 0.01 * 0.01) = 0.014142135623730951%float /\
  JS.hypot 0.01 0.06 = 0.060827625302982184%float /\
  PrimFloat.sqrt (0.01 * 0.01 + 0.06 * 0.06) = 0.060827625302982198%float /\
  JS.hypot 1e200 1e200 = 1.414213562373095e+200%float /\
  JS.hypot 1e-200 1e-200 = 1.414213562373095e-200%float /\
  JS.hypot infinity nan = infinity /\
  is_nan (JS.hypot nan 1) = true /\
  JS.hypot 3 4 = 5%float.
Proof. repeat split; vm_compute; reflexivity. Qed.

(** A near-tie: with the wrist at (0.5, 0.5), a fingertip at (0.36, 0.23)
    and its PIP joint at (0.29, 0.28), the two distances to the wrist come
    out equal, so [isExtended] is false, although a plain
    [sqrt (a*a + b*b)] would put the tip one bit farther than the joint. *)
Example near_tie_is_not_extended :
  let wrist := Some (mkLandmark 0.5 0.5 0) in
  let tip := Some (mkLandmark 0.36 0.23 0) in
  let pip := Some (mkLandmark 0.29 0.28 0) in
  Static.isExtended wrist tip pip = Ok false /\
  Dynamic.isExtended tip pip wrist = Ok false /\
  JS.gt (PrimFloat.sqrt ((0.36 - 0.5) * (0.36 - 0.5) + (0.23 - 0.5) * (0.23 - 0.5)))
        (PrimFloat.sqrt ((0.29 - 0.5) * (0.29 - 0.5) + (0.28 - 0.5) * (0.28 - 0.5)))
  = true.
Proof. repeat split; vm_compute; reflexivity. Qed.

(** ** General facts about lists and the error monad *)

Lemma nth_error_nth_lt {A : Type} (l : list A) (i : nat) (d : A) :
  i < length l -> nth_error l i = Some (nth i l d).
Proof.
  revert i. induction l as [|a l IH]; intros [|i] H; simpl in *; try lia; auto.
  apply IH. lia.
Qed.

Lemma tl_skipn {A : Type} (n : nat) (l : list A) : tl (skipn n l) = skipn (S n) l.
Proof.
  revert l. induction n as [|n IH]; intros [|a l]; simpl; auto.
Qed.

Lemma skipn_snoc {A : Type} (n : nat) (l : list A) (a : A) :
  n <= length l -> skipn n (l ++ [a]) = skipn n l ++ [a].
Proof.
  intros H. rewrite skipn_app.
  replace (n - length l) with 0 by lia. reflexivity.
Qed.

Lemma slice_last_length {A : Type} (k : nat) (l : list A) :
  length (JS.slice_last k l) = Nat.min (length l) k.
Proof. unfold JS.slice_last. rewrite length_skipn. lia. Qed.

Lemma slice_last_min {A : Type} (k : nat) (l : list A) :
  JS.slice_last (Nat.min (length l) k) l = JS.slice_last k l.
Proof. unfold JS.slice_last. f_equal. lia. Qed.

(** ** Gesture buffer *)

Section BufferFacts.
Import Dynamic BufferOps.

Lemma run_snoc (ops : list Op) (o : Op) (b : GestureBuffer) :
  run (ops ++ [o]) b = step (run ops b) o.
Proof. unfold run. rewrite fold_left_app. reflexivity. Qed.

Lemma sinceClear_snoc_add (ops : list Op) (frame : Frame) :
  sinceClear (ops ++ [Add frame]) = sinceClear ops ++ [frame].
Proof. unfold sinceClear. rewrite fold_left_app. reflexivity. Qed.

Lemma sinceClear_snoc_clear (ops : list Op) :
  sinceClear (ops ++ [Clear]) = [].
Proof. unfold sinceClear. rewrite fold_left_app. reflexivity. Qed.

Lemma sinceClear_adds (frames : list Frame) :
  sinceClear (map Add frames) = frames.
Proof.
  induction frames as [|f frames IH] using rev_ind; [reflexivity|].
  rewrite map_app. simpl. rewrite sinceClear_snoc_add, IH. reflexivity.
Qed.

Lemma maxSize_run (ops : list Op) (b : GestureBuffer) :
  maxSize (run ops b) = maxSize b.
Proof.
  revert b. induction ops as [|o ops IH]; intros b; [reflexivity|].
  unfold run in *. simpl. rewrite IH.
  destruct o; simpl; [|reflexivity].
  unfold add. destruct (_ <? _)%Z; reflexivity.
Qed.

(** One [add] on a buffer holding the last [k] of [l] holds the last [k]
    of [l] with the new frame appended. *)
Lemma add_slice_last (k : nat) (l : list Frame) (frame : Frame) (b : GestureBuffer) :
  maxSize b = Z.of_nat k ->
  buffer b = JS.slice_last k l ->
  buffer (add frame b) = JS.slice_last k (l ++ [frame]).
Proof.
  intros Hm Hb. unfold add. rewrite Hm, Hb.
  rewrite length_app, slice_last_length. simpl.
  unfold JS.slice_last. rewrite length_app. simpl.
  destruct (Z.ltb_spec (Z.of_nat k) (Z.of_nat (Nat.min (length l) k + 1))) as [Hlt|Hge];
    simpl.
  - assert (Hk : k <= length l) by lia.
    replace (length l + 1 - k) with (S (length l - k)) by lia.
    destruct (Nat.eq_dec k 0) as [->|Hk0].
    + rewrite Nat.sub_0_r, skipn_all.
      rewrite (skipn_all2 (l ++ [frame])) by (rewrite length_app; simpl; lia).
      reflexivity.
    + rewrite (skipn_snoc (S (length l - k))) by lia. rewrite <- tl_skipn.
      destruct (skipn (length l - k) l) as [|a rest] eqn:E; [|reflexivity].
      apply (f_equal (@length Frame)) in E. rewrite length_skipn in E.
      simpl in E. lia.
  - replace (length l - k) with 0 by lia.
    replace (length l + 1 - k) with 0 by lia. reflexivity.
Qed.

Lemma run_slice_last (k : nat) (ops : list Op) :
  buffer (run ops (new_GestureBuffer (Some (Z.of_nat k))))
  = JS.slice_last k (sinceClear ops).
Proof.
  induction ops as [|o ops IH] using rev_ind; [reflexivity|].
  rewrite run_snoc. destruct o as [frame|]; simpl.
  - rewrite sinceClear_snoc_add. apply add_slice_last; [|exact IH].
    rewrite maxSize_run. reflexivity.
  - rewrite sinceClear_snoc_clear. reflexivity.
Qed.

End BufferFacts.

(** C6. In a Gesture Buffer of capacity [c] (a non-negative count), after
    any sequence of [add] and [clear] calls from the empty buffer the length
    is at most [c]; the buffer holds exactly the most recent [min n c] of
    the [n] frames added since the last [clear], in insertion order; clearing
    it and reading it back gives the empty sequence; and 35 frames added to a
    buffer of capacity 30 leave the most recent 30 (the first 5 dropped). *)
Theorem buffer_keeps_most_recent (c : Z) (ops : list BufferOps.Op) :
  (0 <= c)%Z ->
  let b := BufferOps.run ops (Dynamic.new_GestureBuffer (Some c)) in
  let added := BufferOps.sinceClear ops in
  (Z.of_nat (length (Dynamic.getBuffer b)) <= c)%Z /\
  Dynamic.getBuffer b
  = JS.slice_last (Nat.min (length added) (Z.to_nat c)) added /\
  Dynamic.getBuffer (Dynamic.clear b) = [] /\
  (forall frames : list Frame,
      length frames = 35 ->
      Dynamic.getBuffer
        (BufferOps.run (map BufferOps.Add frames) (Dynamic.new_GestureBuffer (Some 30%Z)))
      = skipn 5 frames).
Proof.
  intros Hc b added. subst b added. unfold Dynamic.getBuffer.
  rewrite <- (Z2Nat.id c Hc). generalize (Z.to_nat c) as k. intros k.
  rewrite Nat2Z.id, run_slice_last, slice_last_min.
  split; [|split; [|split]]; try reflexivity.
  - rewrite slice_last_length. lia.
  - intros frames Hlen.
    change 30%Z with (Z.of_nat 30).
    rewrite run_slice_last, sinceClear_adds.
    unfold JS.slice_last. rewrite Hlen. reflexivity.
Qed.

Lemma buffer_keeps_most_recent_witness :
  let ops := [BufferOps.Add []; BufferOps.Clear; BufferOps.Add [[]]; BufferOps.Add []] in
  Dynamic.getBuffer (BufferOps.run ops (Dynamic.new_GestureBuffer (Some 1%Z)))
  = JS.slice_last 1 [[[]]; []].
Proof.
  exact (proj1 (proj2 (buffer_keeps_most_recent 1 _ (Z.le_0_1)))).
Defined.

(** ** Dynamic gesture matcher: the two guards *)

(** C7. A buffer with fewer than 5 frames gives no match, whatever the
    frames contain (malformed hands included: nothing is read from them). *)
Theorem short_buffer_no_match (b : Dynamic.GestureBuffer) :
  length (Dynamic.getBuffer b) < 5 ->
  Dynamic.recognizeDynamicGesture b = Ok None.
Proof.
  intros H. unfold Dynamic.recognizeDynamicGesture.
  apply Nat.ltb_lt in H. rewrite H. reflexivity.
Qed.

Lemma short_buffer_no_match_witness :
  Dynamic.recognizeDynamicGesture
    (Dynamic.mkBuffer [[Samples.openAt 0.3]; [[]]; []; [Samples.fistThumbOut]] 30)
  = Ok None.
Proof. apply short_buffer_no_match. simpl. lia. Defined.

(** C9. With at least 5 frames in the buffer and no hand in the last
    (current) frame, the matcher gives no match; no detector runs, so the
    contents of the earlier frames do not matter. *)
Theorem empty_current_frame_no_match (b : Dynamic.GestureBuffer) (earlier : list Frame) :
  Dynamic.getBuffer b = earlier ++ [[]] ->
  5 <= length (Dynamic.getBuffer b) ->
  Dynamic.recognizeDynamicGesture b = Ok None.
Proof.
  intros Hb Hlen. unfold Dynamic.recognizeDynamicGesture.
  destruct (Nat.ltb_spec (length (Dynamic.getBuffer b)) 5) as [Hlt|_]; [lia|].
  rewrite Hb, length_app. simpl.
  rewrite nth_error_app2 by lia.
  replace (length earlier + 1 - 1 - length earlier) with 0 by lia.
  reflexivity.
Qed.

Lemma empty_current_frame_no_match_witness :
  let earlier :=
    [[Samples.openAt 0.3]; [[]]; []; [Samples.fistThumbOut]; [Samples.openAt 0.5]] in
  Dynamic.recognizeDynamicGesture (Dynamic.mkBuffer (earlier ++ [[]]) 30) = Ok None.
Proof.
  intros earlier.
  apply (empty_current_frame_no_match (Dynamic.mkBuffer (earlier ++ [[]]) 30) earlier).
  - reflexivity.
  - simpl. lia.
Defined.

(** ** Orientation detector *)

Lemma checkOrientation_some (lms : Hand) (wrist indexTip : NormalizedLandmark) :
  nth_error lms 0 = Some wrist ->
  nth_error lms 8 = Some indexTip ->
  Static.checkOrientation (Some lms) = Ok (orientationOf wrist indexTip).
Proof.
  intros Hw Ht. unfold Static.checkOrientation, orientationOf.
  destruct lms as [|l0 rest]; [discriminate|].
  change (length (l0 :: rest) =? 0) with false. cbv iota.
  rewrite Hw, Ht. simpl.
  destruct (JS.gt _ _); [reflexivity|].
  destruct (JS.lt _ _); reflexivity.
Qed.

(** ** Static pose classifier *)

Lemma letterBranches_produced (lms : Hand) (o : Orientation) (f : Static.Fingers) (g : Gesture) :
  Static.letterBranches lms o f = Ok (Some g) -> In g produced.
Proof.
  unfold Static.letterBranches. intros H.
  destruct f as [t i m r p d1 d2 d3]. hand_cbn H.
  destruct i, m, r, p, t; hand_cbn H;
  repeat split_result H;
  try discriminate H;
  injection H as <-; unfold produced; simpl; tauto.
Qed.

Lemma letterBranches_total (lms : Hand) (o : Orientation) (f : Static.Fingers) :
  21 <= length lms -> Static.letterBranches lms o f <> TypeError.
Proof.
  intros Hlen H. destruct_hand lms Hlen.
  unfold Static.letterBranches in H.
  destruct f as [t i m r p d1 d2 d3]. hand_cbn H.
  destruct i, m, r, p, t; hand_cbn H;
  repeat (split_result H; hand_cbn H); discriminate H.
Qed.

Lemma fingerStates_total (lms : Hand) :
  21 <= length lms -> exists f, Static.fingerStates lms = Ok f.
Proof.
  intros Hlen. destruct_hand lms Hlen.
  unfold Static.fingerStates.
  cbn [bind prop nth_error Static.dist Static.isExtended Static.isThumbExtended].
  eexists. reflexivity.
Qed.

Lemma fingerStates_length (lms : Hand) (f : Static.Fingers) :
  Static.fingerStates lms = Ok f -> 21 <= length lms.
Proof.
  intros H.
  destruct (nth_error lms 20) as [l20|] eqn:E.
  - assert (20 < length lms) by (apply nth_error_Some; congruence). lia.
  - exfalso. unfold Static.fingerStates in H. rewrite E in H.
    unfold Static.isExtended at 4 in H.
    cbn [Static.dist prop bind] in H.
    repeat split_result H; discriminate H.
Qed.

(** *** Motion history *)

(** The two thresholds exclude each other. *)
Lemma up_excludes_down (dy : float) :
  JS.lt dy (-0.02) = true -> JS.gt dy 0.02 = false.
Proof.
  unfold JS.lt, JS.gt. rewrite !ltb_spec.
  let v := eval vm_compute in (Prim2SF (-0.02)%float) in
  change (Prim2SF (-0.02)%float) with v.
  let v := eval vm_compute in (Prim2SF 0.02%float) in
  change (Prim2SF 0.02%float) with v.
  unfold SFltb, SFcompare.
  destruct (Prim2SF dy) as [s|s| |s m e]; try destruct s; intros H;
    first [reflexivity | discriminate H].
Qed.

Lemma cap_after_push (hist : list Z) (d : Z) :
  length hist <= 20 ->
  (if 20 <? length (hist ++ [d]) then tl (hist ++ [d]) else hist ++ [d])
  = JS.slice_last 20 (hist ++ [d]).
Proof.
  intros Hlen. unfold JS.slice_last. rewrite length_app. simpl.
  destruct (Nat.ltb_spec 20 (length hist + 1)) as [Hlt|Hge].
  - replace (length hist + 1 - 20) with 1 by lia. reflexivity.
  - replace (length hist + 1 - 20) with 0 by lia. reflexivity.
Qed.

Lemma updateHistory_prev (wrist prevWrist : NormalizedLandmark) (prev : Hand)
      (hist : list Z) :
  nth_error prev 0 = Some prevWrist ->
  length hist <= 20 ->
  Static.updateHistory (Some wrist) (Static.mkState (Some prev) hist)
  = Ok (nextHistory hist (y wrist - y prevWrist)).
Proof.
  intros Hp Hlen. unfold Static.updateHistory, nextHistory, appendSign.
  cbn [Static.prevLandmarks Static.verticalHistory]. rewrite Hp.
  cbn [prop bind].
  destruct (JS.lt (y wrist - y prevWrist) (-0.02)) eqn:Hup.
  - rewrite (up_excludes_down _ Hup). cbn [Z.eqb negb].
    rewrite <- cap_after_push by exact Hlen.
    destruct (20 <? _); reflexivity.
  - destruct (JS.gt (y wrist - y prevWrist) 0.02); cbn [Z.eqb negb].
    + rewrite <- cap_after_push by exact Hlen.
      destruct (20 <? _); reflexivity.
    + unfold JS.slice_last. replace (length hist - 20) with 0 by lia. reflexivity.
Qed.

Lemma nextHistory_length (hist : list Z) (dy : float) :
  length (nextHistory hist dy) <= 20.
Proof. unfold nextHistory. rewrite slice_last_length. lia. Qed.

(** When [updateHistory] returns, the new history has at most one more
    entry than the old one. *)
Lemma updateHistory_grows (wrist : option NormalizedLandmark) (st : Static.State)
      (h : list Z) :
  Static.updateHistory wrist st = Ok h ->
  length h <= S (length (Static.verticalHistory st)).
Proof.
  unfold Static.updateHistory. intros H.
  destruct (Static.prevLandmarks st) as [prev|].
  - repeat split_result H; try discriminate H; injection H as <-;
      try (destruct (Static.verticalHistory st); simpl);
      try rewrite length_app; simpl; lia.
  - injection H as <-. lia.
Qed.

Lemma directionChanges_loop (pre : list Z) (a : Z) (rest : list Z) (acc : nat) :
  fold_left
    (fun changes i =>
       if negb (nth i (pre ++ a :: rest) 0 =? nth (i - 1) (pre ++ a :: rest) 0)%Z
       then S changes else changes)
    (seq (S (length pre)) (length rest)) acc
  = acc + signChanges (a :: rest).
Proof.
  revert pre a acc. induction rest as [|b rest IH]; intros pre a acc.
  - simpl. lia.
  - cbn [length seq fold_left].
    replace (pre ++ a :: b :: rest) with ((pre ++ [a]) ++ b :: rest)
      by (rewrite <- app_assoc; reflexivity).
    replace (S (length pre)) with (length (pre ++ [a]))
      by (rewrite length_app; simpl; lia).
    rewrite IH.
    rewrite nth_middle.
    replace (length (pre ++ [a]) - 1) with (length pre)
      by (rewrite length_app; simpl; lia).
    rewrite <- app_assoc. cbn [app]. rewrite nth_middle.
    cbn [signChanges]. rewrite (Z.eqb_sym b a).
    destruct (a =? b)%Z; simpl; lia.
Qed.

Lemma directionChanges_signChanges (h : list Z) :
  Static.directionChanges h = signChanges h.
Proof.
  unfold Static.directionChanges. destruct h as [|a rest]; [reflexivity|].
  replace (length (a :: rest) - 1) with (length rest) by (simpl; lia).
  apply (directionChanges_loop [] a rest 0).
Qed.

(** What a call does once orientation, finger states and the updated
    history are known. *)
Lemma recognizeGesture_steps (lms : Hand) (st : Static.State) (o : Orientation)
      (f : Static.Fingers) (h : list Z) :
  Static.checkOrientation (Some lms) = Ok o ->
  Static.fingerStates lms = Ok f ->
  Static.updateHistory (nth_error lms 0) st = Ok h ->
  Static.recognizeGesture (Some lms) st
  = if shakes h then (Ok "6-7", Static.mkState (Some lms) [])
    else match Static.letterBranches lms o f with
         | TypeError => (TypeError, Static.mkState (Static.prevLandmarks st) h)
         | Ok (Some g) => (Ok g, Static.mkState (Static.prevLandmarks st) h)
         | Ok None => (Ok "NONE", Static.mkState (Some lms) h)
         end.
Proof.
  intros Ho Hf Hh. unfold Static.recognizeGesture.
  assert (Hlen : 21 <= length lms) by exact (fingerStates_length _ _ Hf).
  destruct lms as [|l0 rest]; [simpl in Hlen; lia|].
  change (length (l0 :: rest) =? 0) with false. cbv iota.
  rewrite Ho, Hf, Hh. cbn [bind].
  unfold shakes. rewrite directionChanges_signChanges. reflexivity.
Qed.

Lemma updateHistory_total (wrist : NormalizedLandmark) (st : Static.State) :
  Static.prevLandmarks st <> Some [] ->
  exists h, Static.updateHistory (Some wrist) st = Ok h.
Proof.
  intros Hprev. unfold Static.updateHistory.
  destruct (Static.prevLandmarks st) as [[|prevWrist rest]|] eqn:E;
    [exfalso; apply Hprev; reflexivity| |eexists; reflexivity].
  cbn [nth_error prop bind].
  destruct (negb _); [destruct (20 <? _)|]; eexists; reflexivity.
Qed.

(** Every label a call can return: "NONE", the shake label, or one of the
    letters of [produced]. *)
Lemma recognizeGesture_labels (landmarks : option Hand) (st : Static.State) (g : Gesture) :
  fst (Static.recognizeGesture landmarks st) = Ok g ->
  In g ("NONE" :: "6-7" :: produced).
Proof.
  unfold Static.recognizeGesture.
  destruct landmarks as [lms|]; [|intros [= <-]; simpl; tauto].
  destruct (length lms =? 0); [intros [= <-]; simpl; tauto|].
  destruct (bind _ _) as [[[o f] h]|]; [|discriminate].
  destruct (_ && _); [intros [= <-]; simpl; tauto|].
  destruct (Static.letterBranches lms o f) as [[g'|]|] eqn:E; cbn [fst].
  - intros [= <-]. right. right. exact (letterBranches_produced _ _ _ _ E).
  - intros [= <-]. simpl. tauto.
  - discriminate.
Qed.

(** C8. The orientation detector is a function of its argument alone. For a
    missing or empty array it returns "NONE"; when landmarks 0 (wrist) and 8
    (index fingertip) are present, with [dx = |x8 - x0|] and
    [dy = |y8 - y0|], it returns "SIDE" when [dx > dy], otherwise "UP" when
    [y8 < y0], otherwise "DOWN". *)
Theorem checkOrientation_cases :
  Static.checkOrientation None = Ok "NONE" /\
  Static.checkOrientation (Some []) = Ok "NONE" /\
  (forall (lms : Hand) (wrist indexTip : NormalizedLandmark),
      nth_error lms 0 = Some wrist ->
      nth_error lms 8 = Some indexTip ->
      let dx := abs (x indexTip - x wrist) in
      let dy := abs (y indexTip - y wrist) in
      Static.checkOrientation (Some lms)
      = Ok (if JS.gt dx dy then "SIDE"
            else if JS.lt (y indexTip) (y wrist) then "UP" else "DOWN")).
Proof.
  split; [reflexivity|]. split; [reflexivity|].
  intros lms wrist indexTip Hw Ht dx dy.
  exact (checkOrientation_some lms wrist indexTip Hw Ht).
Qed.

Lemma checkOrientation_cases_witness :
  Static.checkOrientation (Some Samples.pinchedOpen) = Ok "UP".
Proof.
  exact (proj2 (proj2 checkOrientation_cases) Samples.pinchedOpen _ _ eq_refl eq_refl).
Defined.

(** The three worked examples of the specification: wrist at (0.5, 0.5, 0)
    and the index fingertip above, beside and below it. *)
Example checkOrientation_examples :
  let hand tip := repeat (mkLandmark 0.5 0.5 0) 8 ++ tip :: repeat (mkLandmark 0.5 0.5 0) 12 in
  Static.checkOrientation (Some (hand (mkLandmark 0.5 0.3 0))) = Ok "UP" /\
  Static.checkOrientation (Some (hand (mkLandmark 0.7 0.5 0))) = Ok "SIDE" /\
  Static.checkOrientation (Some (hand (mkLandmark 0.5 0.7 0))) = Ok "DOWN".
Proof. repeat split; vm_compute; reflexivity. Qed.

(** C1 (the code at the input where it departs from the claim). From the
    freshly loaded module, a call on a fist with the thumb out returns "A"
    and leaves [prevLandmarks] null: the early return of a letter skips the
    assignment [prevLandmarks = landmarks] that the shake return and the
    final "NONE" return perform. *)
Theorem letter_return_skips_prevLandmarks :
  Static.recognizeGesture (Some Samples.fistThumbOut) Static.initial
  = (Ok "A", Static.mkState None []).
Proof. vm_compute. reflexivity. Qed.

(** X6. The two return paths that do record the frame: a call on a
    non-empty array that returns "6-7" or "NONE" leaves [prevLandmarks]
    pointing at that array. *)
Lemma shake_or_none_records_frame (lms : Hand) (st st' : Static.State) (g : Gesture) :
  Static.recognizeGesture (Some lms) st = (Ok g, st') ->
  lms <> [] ->
  g = "6-7" \/ g = "NONE" ->
  Static.prevLandmarks st' = Some lms.
Proof.
  unfold Static.recognizeGesture. intros H Hne Hg.
  destruct lms as [|l0 rest]; [congruence|].
  change (length (l0 :: rest) =? 0) with false in H. cbv iota in H.
  destruct (bind _ _) as [[[o f] h]|]; [|discriminate].
  destruct (_ && _); [injection H as <- <-; reflexivity|].
  destruct (Static.letterBranches (l0 :: rest) o f) as [[g'|]|] eqn:E.
  - injection H as -> <-. apply letterBranches_produced in E.
    exfalso. destruct Hg as [-> | ->]; simpl in E;
      repeat (destruct E as [E|E]; [discriminate E|]); exact E.
  - injection H as <- <-. reflexivity.
  - discriminate.
Qed.

(** C10. "J" and "R" are members of the declared [Gesture] type, yet no call
    of the classifier returns either of them. *)
Theorem never_J_or_R (landmarks : option Hand) (st : Static.State) :
  In "J" Gesture_members /\ In "R" Gesture_members /\
  fst (Static.recognizeGesture landmarks st) <> Ok "J" /\
  fst (Static.recognizeGesture landmarks st) <> Ok "R".
Proof.
  split; [simpl; tauto|]. split; [simpl; tauto|].
  split; intros H; apply recognizeGesture_labels in H; simpl in H;
    repeat (destruct H as [H|H]; [discriminate H|]); exact H.
Qed.

Lemma hand_has_wrist_and_tip (lms : Hand) :
  21 <= length lms ->
  exists wrist indexTip, nth_error lms 0 = Some wrist /\ nth_error lms 8 = Some indexTip.
Proof.
  intros Hlen. destruct_hand lms Hlen. eexists. eexists. split; reflexivity.
Qed.

Lemma not_shake_label (g : Gesture) : In g produced -> g <> "6-7".
Proof.
  intros H ->. simpl in H.
  repeat (destruct H as [H|H]; [discriminate H|]). exact H.
Qed.

(** C4. With [st] the state before a call on a hand [lms] of at least 21
    landmarks: (1) when a previous frame exists and the history holds at most
    20 entries, the updated history is the old one with -1 appended when
    [dy < -0.02], with +1 appended when [dy > 0.02], and unchanged otherwise,
    cut to its 20 most recent entries; (2) whenever the updated history has
    more than 6 entries and at least 4 adjacent pairs that differ, the call
    returns "6-7" with the history cleared, whatever the finger states are;
    otherwise it does not return "6-7" and the updated history is kept. *)
Theorem motion_history_and_shake (lms : Hand) (st : Static.State) :
  21 <= length lms ->
  (forall (prev : Hand) (wrist prevWrist : NormalizedLandmark),
      Static.prevLandmarks st = Some prev ->
      nth_error lms 0 = Some wrist ->
      nth_error prev 0 = Some prevWrist ->
      length (Static.verticalHistory st) <= 20 ->
      let dy := (y wrist - y prevWrist)%float in
      let appended :=
        if JS.lt dy (-0.02) then Static.verticalHistory st ++ [(-1)%Z]
        else if JS.gt dy 0.02 then Static.verticalHistory st ++ [1%Z]
        else Static.verticalHistory st in
      Static.updateHistory (nth_error lms 0) st = Ok (JS.slice_last 20 appended)
      /\ length (JS.slice_last 20 appended) <= 20) /\
  (forall h : list Z,
      Static.updateHistory (nth_error lms 0) st = Ok h ->
      if (6 <? length h) && (4 <=? signChanges h)
      then Static.recognizeGesture (Some lms) st
           = (Ok "6-7", Static.mkState (Some lms) [])
      else fst (Static.recognizeGesture (Some lms) st) <> Ok "6-7"
           /\ Static.verticalHistory (snd (Static.recognizeGesture (Some lms) st)) = h).
Proof.
  intros Hlen. split.
  - intros prev wrist prevWrist Hprev Hw Hp Hhist dy appended.
    destruct st as [p hist]. cbn [Static.prevLandmarks Static.verticalHistory] in *.
    subst p. rewrite Hw. split.
    + exact (updateHistory_prev wrist prevWrist prev hist Hp Hhist).
    + exact (nextHistory_length hist dy).
  - intros h Hh.
    destruct (hand_has_wrist_and_tip lms Hlen) as (wrist & indexTip & Hw & Ht).
    destruct (fingerStates_total lms Hlen) as [f Hf].
    rewrite (recognizeGesture_steps lms st _ f h
               (checkOrientation_some lms wrist indexTip Hw Ht) Hf Hh).
    fold (shakes h). destruct (shakes h); [reflexivity|].
    pose proof (letterBranches_total lms (orientationOf wrist indexTip) f Hlen) as Htot.
    destruct (Static.letterBranches lms (orientationOf wrist indexTip) f)
      as [[g|]|] eqn:E; cbn [fst snd Static.verticalHistory].
    + split; [|reflexivity]. intros [= Hg].
      exact (not_shake_label g (letterBranches_produced _ _ _ _ E) Hg).
    + split; [discriminate|reflexivity].
    + congruence.
Qed.

Lemma motion_history_and_shake_witness :
  let prev := Samples.middleOnly 0.5 in
  let lms := Samples.middleOnly 0.6 in
  let st := Static.mkState (Some prev) [1; -1; 1; -1; 1; -1]%Z in
  Static.updateHistory (nth_error lms 0) st = Ok [1; -1; 1; -1; 1; -1; 1]%Z /\
  Static.recognizeGesture (Some lms) st = (Ok "6-7", Static.mkState (Some lms) []).
Proof.
  intros prev lms st.
  assert (Hlen : 21 <= length lms) by (vm_compute; lia).
  pose proof (motion_history_and_shake lms st Hlen) as [Hupd Hshake].
  split.
  - refine (proj1 (Hupd prev _ _ eq_refl eq_refl eq_refl _)). simpl. lia.
  - exact (Hshake [1; -1; 1; -1; 1; -1; 1]%Z eq_refl).
Defined.

(** C5. If a call returns the shake label, the history it leaves is empty,
    and a second call on the same landmarks in the state it left returns a
    label other than "6-7". *)
Theorem second_call_after_shake (lms : Hand) (st st' : Static.State) :
  Static.recognizeGesture (Some lms) st = (Ok "6-7", st') ->
  Static.verticalHistory st' = [] /\
  exists (g : Gesture) (st'' : Static.State),
    Static.recognizeGesture (Some lms) st' = (Ok g, st'') /\ g <> "6-7".
Proof.
  intros H.
  assert (Hfirst : st' = Static.mkState (Some lms) [] /\
                   exists o f, Static.checkOrientation (Some lms) = Ok o /\
                               Static.fingerStates lms = Ok f).
  { unfold Static.recognizeGesture in H.
    destruct (length lms =? 0); [discriminate H|].
    destruct (Static.checkOrientation (Some lms)) as [o|]; [|discriminate H].
    destruct (Static.fingerStates lms) as [f|]; [|discriminate H].
    destruct (Static.updateHistory (nth_error lms 0) st) as [h|]; [|discriminate H].
    cbn [bind] in H.
    destruct (_ && _).
    - injection H as <-. split; [reflexivity|]. exists o, f. split; reflexivity.
    - exfalso.
      destruct (Static.letterBranches lms o f) as [[g|]|] eqn:E; try discriminate H.
      injection H as Hg _.
      exact (not_shake_label g (letterBranches_produced _ _ _ _ E) Hg). }
  destruct Hfirst as [-> (o & f & Ho & Hf)]. split; [reflexivity|].
  pose proof (fingerStates_length lms f Hf) as Hlen.
  destruct (hand_has_wrist_and_tip lms Hlen) as (wrist & indexTip & Hw & _).
  destruct (updateHistory_total wrist (Static.mkState (Some lms) [])) as [h Hh].
  { cbn [Static.prevLandmarks]. intros [= ->]. simpl in Hlen. lia. }
  pose proof (updateHistory_grows _ _ _ Hh) as Hgrow.
  cbn [Static.verticalHistory length] in Hgrow.
  rewrite <- Hw in Hh.
  rewrite (recognizeGesture_steps lms _ o f h Ho Hf Hh).
  assert (Hno : shakes h = false).
  { unfold shakes. destruct (Nat.ltb_spec 6 (length h)); [lia|reflexivity]. }
  rewrite Hno.
  pose proof (letterBranches_total lms o f Hlen) as Htot.
  destruct (Static.letterBranches lms o f) as [[g|]|] eqn:E.
  - eexists. eexists. split; [reflexivity|].
    exact (not_shake_label g (letterBranches_produced _ _ _ _ E)).
  - eexists. eexists. split; [reflexivity|discriminate].
  - congruence.
Qed.

Lemma second_call_after_shake_witness :
  let lms := Samples.middleOnly 0.6 in
  exists (g : Gesture) (st'' : Static.State),
    Static.recognizeGesture (Some lms) (Static.mkState (Some lms) []) = (Ok g, st'')
    /\ g <> "6-7".
Proof.
  intros lms.
  refine (proj2 (second_call_after_shake lms
                   (Static.mkState (Some (Samples.middleOnly 0.5)) [1; -1; 1; -1; 1; -1]%Z)
                   (Static.mkState (Some lms) []) _)).
  vm_compute. reflexivity.
Defined.

(** C2 (as amended). For a hand of at least 21 landmarks whose index,
    middle, ring and pinky fingers are all extended and whose thumb tip is
    within 0.06 of both the index and the middle fingertip, the classifier
    returns "F" unless the shake check returns "6-7" first: the second F test
    (line 240) comes before the O test (line 259). *)
Theorem pinched_open_hand_is_F (lms : Hand) (st : Static.State) :
  21 <= length lms ->
  Static.prevLandmarks st <> Some [] ->
  let l i := nth_error lms i in
  Static.isExtended (l 0) (l 8) (l 6) = Ok true ->
  Static.isExtended (l 0) (l 12) (l 10) = Ok true ->
  Static.isExtended (l 0) (l 16) (l 14) = Ok true ->
  Static.isExtended (l 0) (l 20) (l 18) = Ok true ->
  Static.near (l 4) (l 8) 0.06 = Ok true ->
  Static.near (l 4) (l 12) 0.06 = Ok true ->
  fst (Static.recognizeGesture (Some lms) st) <> Ok "6-7" ->
  fst (Static.recognizeGesture (Some lms) st) = Ok "F".
Proof.
  intros Hlen Hprev l Hi Hm Hr Hp Hti Htm Hnoshake. subst l.
  destruct (hand_has_wrist_and_tip lms Hlen) as (wrist & indexTip & Hw & Ht).
  destruct (updateHistory_total wrist st Hprev) as [h Hh]. rewrite <- Hw in Hh.
  pose proof (checkOrientation_some lms wrist indexTip Hw Ht) as Ho.
  clear Hw Ht Hprev.
  destruct_hand lms Hlen.
  assert (Hf : exists t d1 d2 d3,
             Static.fingerStates (n :: n0 :: n1 :: n2 :: n3 :: n4 :: n5 :: n6 :: n7
                                    :: n8 :: n9 :: n10 :: n11 :: n12 :: n13 :: n14
                                    :: n15 :: n16 :: n17 :: n18 :: n19 :: lms)
             = Ok (Static.mkFingers t true true true true d1 d2 d3)).
  { unfold Static.fingerStates.
    hand_cbn Hi. hand_cbn Hm. hand_cbn Hr. hand_cbn Hp.
    injection Hi as Hi. injection Hm as Hm. injection Hr as Hr. injection Hp as Hp.
    cbn [bind prop nth_error Static.dist Static.isExtended Static.isThumbExtended].
    rewrite Hi, Hm, Hr, Hp. do 4 eexists. reflexivity. }
  destruct Hf as (t & d1 & d2 & d3 & Hf).
  rewrite (recognizeGesture_steps _ st _ _ h Ho Hf Hh) in *.
  destruct (shakes h); [exfalso; apply Hnoshake; reflexivity|].
  unfold Static.letterBranches.
  hand_cbn Hti. injection Hti as Hti.
  cbn [bind prop nth_error andJ orJ notJ Static.dist Static.near
       Static.thumbOpen Static.indexOpen Static.middleOpen Static.ringOpen
       Static.pinkyOpen Static.dThumbIndex negb andb].
  rewrite Hti. reflexivity.
Qed.

Lemma pinched_open_hand_is_F_witness :
  fst (Static.recognizeGesture (Some Samples.pinchedOpen) Static.initial) = Ok "F".
Proof.
  apply (pinched_open_hand_is_F Samples.pinchedOpen Static.initial);
    try (vm_compute; reflexivity).
  - discriminate.
  - vm_compute. discriminate.
Defined.

(** C2 (the claim as stated fails). In this hand all four fingers are
    extended and the thumb tip is within 0.06 of the index and of the middle
    fingertip; from the freshly loaded module the classifier returns "F",
    not "O". *)
Lemma pinched_open_hand_not_O :
  let l i := nth_error Samples.pinchedOpen i in
  Static.isExtended (l 0) (l 8) (l 6) = Ok true /\
  Static.isExtended (l 0) (l 12) (l 10) = Ok true /\
  Static.isExtended (l 0) (l 16) (l 14) = Ok true /\
  Static.isExtended (l 0) (l 20) (l 18) = Ok true /\
  Static.near (l 4) (l 8) 0.06 = Ok true /\
  Static.near (l 4) (l 12) 0.06 = Ok true /\
  fst (Static.recognizeGesture (Some Samples.pinchedOpen) Static.initial) = Ok "F" /\
  fst (Static.recognizeGesture (Some Samples.pinchedOpen) Static.initial) <> Ok "O".
Proof.
  repeat split; try (vm_compute; reflexivity).
  vm_compute. discriminate.
Qed.

(** "O" is returned for other finger combinations, such as a lone ring
    finger with the thumb tip on the curled index and middle tips. *)
Example ring_only_pinched_is_O :
  fst (Static.recognizeGesture (Some Samples.ringOnlyPinched) Static.initial) = Ok "O".
Proof. vm_compute. reflexivity. Qed.

(** *** The state invariant *)

Lemma updateHistory_capped (wrist : option NormalizedLandmark) (st : Static.State)
      (h : list Z) :
  Static.updateHistory wrist st = Ok h ->
  length (Static.verticalHistory st) <= 20 ->
  length h <= 20.
Proof.
  unfold Static.updateHistory. intros H Hlen.
  destruct (Static.prevLandmarks st) as [prev|]; [|injection H as <-; exact Hlen].
  repeat match type of H with
         | context [bind (prop ?f ?o) _] => destruct (prop f o); cbn [bind] in H
         end; try discriminate H.
  destruct (negb _); [|injection H as <-; exact Hlen].
  match type of H with
  | context [20 <? ?n] => destruct (Nat.ltb_spec 20 n) as [Hlt|Hge]
  end; injection H as <-; [|exact Hge].
  rewrite length_app in Hlt. simpl in Hlt.
  destruct (Static.verticalHistory st) as [|sign signs]; simpl in *;
    try rewrite length_app; simpl; lia.
Qed.

Lemma recognizeGesture_wellFormed (landmarks : option Hand) (st : Static.State) :
  wellFormed st -> wellFormed (snd (Static.recognizeGesture landmarks st)).
Proof.
  intros [Hprev Hlen]. unfold Static.recognizeGesture.
  destruct landmarks as [lms|]; [|split; assumption].
  destruct lms as [|l0 rest]; [split; assumption|].
  change (length (l0 :: rest) =? 0) with false. cbv iota.
  destruct (Static.checkOrientation _) as [o|]; [|split; assumption].
  destruct (Static.fingerStates _) as [f|]; [|split; assumption].
  destruct (Static.updateHistory _ st) as [h|] eqn:Hh; [|split; assumption].
  cbn [bind]. pose proof (updateHistory_capped _ _ _ Hh Hlen) as Hcap.
  destruct (_ && _); [split; [discriminate|simpl; lia]|].
  destruct (Static.letterBranches _ o f) as [[g|]|]; split; cbn; try assumption;
    discriminate.
Qed.

(** Every state the module can reach from its initial state is well formed;
    in particular the motion history never holds more than 20 signs. *)
Lemma reachable_wellFormed (inputs : list (option Hand)) :
  wellFormed (stateAfter inputs Static.initial).
Proof.
  unfold stateAfter.
  assert (H0 : wellFormed Static.initial) by (split; [discriminate|simpl; lia]).
  revert H0. generalize Static.initial as st.
  induction inputs as [|l inputs IH]; intros st Hst; [exact Hst|].
  simpl. apply IH. exact (recognizeGesture_wellFormed l st Hst).
Qed.

(** A shake is reachable from the initial state: one call that ends in
    "NONE" records the frame, and seven calls on hands that return a letter,
    their wrists alternately below and above it, fill the history. The
    eighth call returns "6-7". *)
Example shake_reachable :
  let down := Some (Samples.mkHand 0.5 0.6 Samples.thumbOut false false false false) in
  let up := Some (Samples.mkHand 0.5 0.4 Samples.thumbOut false false false false) in
  let st := stateAfter [Some (Samples.middleOnly 0.5); down; up; down; up; down; up]
                       Static.initial in
  Static.verticalHistory st = [1; -1; 1; -1; 1; -1]%Z /\
  fst (Static.recognizeGesture down st) = Ok "6-7".
Proof. split; vm_compute; reflexivity. Qed.

(** ** Dynamic gesture matcher: HELLO *)

Lemma reversal_loop (pre : list float) (a : float) (rest : list float)
      (changes : nat) (lastDir : Z) :
  fst (fold_left (Dynamic.reversalStep (pre ++ a :: rest))
                 (seq (S (length pre)) (length rest)) (changes, lastDir))
  = changes + reversalsFrom lastDir a rest.
Proof.
  revert pre a changes lastDir.
  induction rest as [|b rest IH]; intros pre a changes lastDir.
  - simpl. lia.
  - cbn [length seq fold_left].
    assert (Hstep : Dynamic.reversalStep (pre ++ a :: b :: rest) (changes, lastDir)
                                         (S (length pre))
                    = let d := (b - a)%float in
                      if JS.gt (abs d) 0.005 then
                        let dir := if JS.gt d 0 then 1%Z else (-1)%Z in
                        (if negb (lastDir =? 0)%Z && negb (dir =? lastDir)%Z
                         then S changes else changes, dir)
                      else (changes, lastDir)).
    { unfold Dynamic.reversalStep.
      replace (S (length pre) - 1) with (length pre) by lia.
      rewrite nth_middle.
      replace (pre ++ a :: b :: rest) with ((pre ++ [a]) ++ b :: rest)
        by (rewrite <- app_assoc; reflexivity).
      replace (S (length pre)) with (length (pre ++ [a]))
        by (rewrite length_app; simpl; lia).
      rewrite nth_middle. reflexivity. }
    rewrite Hstep. clear Hstep.
    replace (pre ++ a :: b :: rest) with ((pre ++ [a]) ++ b :: rest)
      by (rewrite <- app_assoc; reflexivity).
    replace (S (S (length pre))) with (S (length (pre ++ [a])))
      by (rewrite length_app; simpl; lia).
    cbn [reversalsFrom]. cbv zeta.
    destruct (JS.gt (abs (b - a)) 0.005).
    + rewrite IH. destruct (negb _ && negb _); lia.
    + rewrite IH. reflexivity.
Qed.

Lemma countDirectionChanges_reversals (vals : list float) :
  Dynamic.countDirectionChanges vals = reversals vals.
Proof.
  unfold Dynamic.countDirectionChanges. destruct vals as [|a rest]; [reflexivity|].
  replace (length (a :: rest) - 1) with (length rest) by (simpl; lia).
  apply (reversal_loop [] a rest 0 0%Z).
Qed.

Lemma filterJ_length {A : Type} (p : A -> Result bool) (a kept : list A) :
  filterJ p a = Ok kept -> length kept <= length a.
Proof.
  revert kept. induction a as [|e rest IH]; intros kept H; simpl in H.
  - injection H as <-. simpl. lia.
  - destruct (p e) as [v|]; [|discriminate H]. cbn [bind] in H.
    destruct (filterJ p rest) as [k|]; [|discriminate H]. cbn [bind] in H.
    injection H as <-. specialize (IH k eq_refl).
    destruct v; simpl; lia.
Qed.

(** [some] finds an element exactly when [filter] keeps one. *)
Lemma someJ_filterJ {A : Type} (p : A -> Result bool) (a kept : list A) (found : bool) :
  someJ p a = Ok found ->
  filterJ p a = Ok kept ->
  found = match kept with [] => false | _ :: _ => true end.
Proof.
  revert kept found. induction a as [|e rest IH]; intros kept found Hs Hf; simpl in *.
  - injection Hs as <-. injection Hf as <-. reflexivity.
  - destruct (p e) as [v|]; [|discriminate Hs]. cbn [bind] in *.
    destruct (filterJ p rest) as [k|]; [|discriminate Hf]. cbn [bind] in Hf.
    injection Hf as <-. destruct v.
    + injection Hs as <-. reflexivity.
    + exact (IH k found Hs eq_refl).
Qed.

(** The sample loop adds one wrist X per frame counted by [openHandCount]. *)
Lemma collect_counts (recent kept : list Frame) (acc wristXs : list float) :
  filterJ Dynamic.hasOpenHand recent = Ok kept ->
  forOf Dynamic.pushWristX recent acc = Ok wristXs ->
  length wristXs = length acc + length kept.
Proof.
  revert kept acc wristXs.
  induction recent as [|frame rest IH]; intros kept acc wristXs Hk Hc;
    cbn [filterJ forOf] in Hk, Hc.
  - injection Hk as <-. injection Hc as <-. simpl. lia.
  - destruct (Dynamic.hasOpenHand frame) as [found|] eqn:Hs; [|discriminate Hk].
    cbn [bind] in Hk.
    destruct (filterJ Dynamic.hasOpenHand rest) as [k|] eqn:Hrest; [|discriminate Hk].
    cbn [bind] in Hk. injection Hk as <-.
    unfold Dynamic.pushWristX in Hc at 1.
    destruct (filterJ Dynamic.checkOpenHand frame) as [hands|] eqn:Hf; [|discriminate Hc].
    cbn [bind] in Hc.
    rewrite (someJ_filterJ _ _ _ _ Hs Hf).
    destruct hands as [|first others].
    + cbn [bind] in Hc. rewrite (IH k acc wristXs eq_refl Hc). reflexivity.
    + destruct (prop x (nth_error first 0)) as [wx|]; [|discriminate Hc].
      cbn [bind] in Hc. rewrite (IH k _ wristXs eq_refl Hc).
      rewrite length_app. simpl. lia.
Qed.

Lemma samples_match_count (recent : list Frame) (count : nat) (wristXs : list float) :
  Dynamic.openHandCount recent = Ok count ->
  Dynamic.collectWristXs recent = Ok wristXs ->
  length wristXs = count /\ count <= length recent.
Proof.
  unfold Dynamic.openHandCount, Dynamic.collectWristXs. intros Hn Hx.
  destruct (filterJ _ recent) as [kept|] eqn:Hk; [|discriminate Hn].
  cbn [bind] in Hn. injection Hn as <-.
  split.
  - exact (collect_counts recent kept [] wristXs Hk Hx).
  - exact (filterJ_length _ _ _ Hk).
Qed.

(** C3 (as amended). If the current (last) frame of the buffer has at least
    one hand, more than 14 of the last 20 frames contain an open hand, and
    the wrist-X samples collected from those frames show at least 2 direction
    reversals and a range above 0.1, the matcher returns "HELLO". (More than
    14 open frames already give at least 5 frames and more than 10 samples.) *)
Theorem wave_is_HELLO (b : Dynamic.GestureBuffer) (earlier : list Frame)
        (currentFrame : Frame) (count : nat) (wristXs : list float) :
  Dynamic.getBuffer b = earlier ++ [currentFrame] ->
  currentFrame <> [] ->
  Dynamic.openHandCount (JS.slice_last 20 (Dynamic.getBuffer b)) = Ok count ->
  14 < count ->
  Dynamic.collectWristXs (JS.slice_last 20 (Dynamic.getBuffer b)) = Ok wristXs ->
  2 <= reversals wristXs ->
  JS.gt (JS.Math_max wristXs - JS.Math_min wristXs) 0.1 = true ->
  Dynamic.recognizeDynamicGesture b = Ok (Some "HELLO").
Proof.
  intros Hb Hcur Hcount Hmany Hxs Hrev Hrange.
  destruct (samples_match_count _ _ _ Hcount Hxs) as [Hlen Hle].
  rewrite slice_last_length in Hle.
  unfold Dynamic.recognizeDynamicGesture.
  destruct (Nat.ltb_spec (length (Dynamic.getBuffer b)) 5) as [Hlt|_]; [lia|].
  assert (Hlast : nth_error (Dynamic.getBuffer b) (length (Dynamic.getBuffer b) - 1)
                  = Some currentFrame).
  { rewrite Hb, length_app, nth_error_app2 by (simpl; lia).
    replace (length earlier + length [currentFrame] - 1 - length earlier) with 0
      by (simpl; lia).
    reflexivity. }
  rewrite Hlast.
  destruct currentFrame as [|hand others]; [congruence|].
  change (length (hand :: others) =? 0) with false. cbv iota.
  unfold Dynamic.detectHello. rewrite Hcount. cbn [bind].
  destruct (Nat.ltb_spec 14 count) as [_|Hge]; [|lia].
  rewrite Hxs. cbn [bind].
  destruct (Nat.ltb_spec 10 (length wristXs)) as [_|Hge]; [|lia].
  rewrite countDirectionChanges_reversals, Hrange.
  destruct (Nat.leb_spec 2 (reversals wristXs)) as [_|Hlt]; [|lia].
  reflexivity.
Qed.

Lemma wave_is_HELLO_witness :
  Dynamic.recognizeDynamicGesture Samples.wave20 = Ok (Some "HELLO").
Proof.
  apply (wave_is_HELLO Samples.wave20 (Samples.waveFrames 19) (Samples.waveFrame 19) 20
           (map (fun i => if Nat.even i then 0.3 else 0.5)%float (seq 0 20)));
    try (vm_compute; reflexivity).
  - discriminate.
  - lia.
  - vm_compute. lia.
Defined.

(** C3 (the claim as stated fails). In [wave14of20] exactly 14 of the last
    20 frames (70%) contain an open hand, 14 wrist-X samples are collected,
    they show 12 reversals and a range of 0.2, and the current frame has a
    hand; the matcher returns no match, because it asks for more than 14 such
    frames. In [wave19thenEmpty] 19 of the last 20 frames qualify, with 17
    reversals and the same range, and the matcher returns no match because
    the current frame has no hand. *)
Lemma wave_at_70_percent_no_match :
  (let recent := JS.slice_last 20 (Dynamic.getBuffer Samples.wave14of20) in
   length recent = 20 /\
   Dynamic.openHandCount recent = Ok 14 /\
   (exists wristXs,
       Dynamic.collectWristXs recent = Ok wristXs /\
       length wristXs = 14 /\
       reversals wristXs = 12 /\
       JS.gt (JS.Math_max wristXs - JS.Math_min wristXs) 0.1 = true) /\
   Dynamic.recognizeDynamicGesture Samples.wave14of20 = Ok None) /\
  (let recent := JS.slice_last 20 (Dynamic.getBuffer Samples.wave19thenEmpty) in
   length recent = 20 /\
   Dynamic.openHandCount recent = Ok 19 /\
   (exists wristXs,
       Dynamic.collectWristXs recent = Ok wristXs /\
       length wristXs = 19 /\
       reversals wristXs = 17 /\
       JS.gt (JS.Math_max wristXs - JS.Math_min wristXs) 0.1 = true) /\
   Dynamic.recognizeDynamicGesture Samples.wave19thenEmpty = Ok None).
Proof.
  split; cbv zeta.
  - split; [reflexivity|]. split; [vm_compute; reflexivity|]. split.
    + eexists. split; [vm_compute; reflexivity|].
      repeat split; vm_compute; reflexivity.
    + vm_compute. reflexivity.
  - split; [reflexivity|]. split; [vm_compute; reflexivity|]. split.
    + eexists. split; [vm_compute; reflexivity|].
      repeat split; vm_compute; reflexivity.
    + vm_compute. reflexivity.
Qed.

(** ** Static pose classifier: edge behaviour and invariants *)

Lemma fingerStates_short (lms : Hand) :
  length lms < 21 -> Static.fingerStates lms = TypeError.
Proof.
  intros Hlen. destruct (Static.fingerStates lms) as [f|] eqn:E; [|reflexivity].
  apply fingerStates_length in E. lia.
Qed.

(** X1. A non-empty array of fewer than 21 landmarks makes the classifier
    throw, and the module state is left as it was. *)
Theorem malformed_hand_throws (lms : Hand) (st : Static.State) :
  1 <= length lms ->
  length lms < 21 ->
  Static.recognizeGesture (Some lms) st = (TypeError, st).
Proof.
  intros Hne Hshort. unfold Static.recognizeGesture.
  destruct (Nat.eqb_spec (length lms) 0) as [H0|_]; [lia|].
  destruct (Static.checkOrientation (Some lms)) as [o|]; cbn [bind]; [|reflexivity].
  rewrite (fingerStates_short lms Hshort). reflexivity.
Qed.

Lemma malformed_hand_throws_witness :
  Static.recognizeGesture (Some (firstn 20 Samples.pinchedOpen)) Static.initial
  = (TypeError, Static.initial).
Proof. apply malformed_hand_throws; vm_compute; lia. Defined.

Lemma updateHistory_signs (wrist : option NormalizedLandmark) (st : Static.State)
      (h : list Z) :
  Static.updateHistory wrist st = Ok h ->
  Forall (fun s => s = (-1)%Z \/ s = 1%Z) (Static.verticalHistory st) ->
  Forall (fun s => s = (-1)%Z \/ s = 1%Z) h.
Proof.
  unfold Static.updateHistory. intros H Hs.
  destruct (Static.prevLandmarks st) as [prev|]; [|injection H as <-; exact Hs].
  repeat match type of H with
         | context [bind (prop ?f ?o) _] => destruct (prop f o); cbn [bind] in H
         end; try discriminate H.
  match type of H with
  | context [negb (?d =? 0)%Z] =>
      assert (Hd : negb (d =? 0)%Z = true -> d = (-1)%Z \/ d = 1%Z)
        by (destruct (JS.gt _ _); [intros _; right; reflexivity|];
            destruct (JS.lt _ _); [intros _; left; reflexivity|discriminate]);
      destruct (negb (d =? 0)%Z); [specialize (Hd eq_refl)|injection H as <-; exact Hs];
      assert (Hpushed : Forall (fun s => s = (-1)%Z \/ s = 1%Z)
                               (Static.verticalHistory st ++ [d]))
        by (apply Forall_app; split; [exact Hs|constructor; [exact Hd|constructor]])
  end.
  destruct (20 <? _); injection H as <-; [|exact Hpushed].
  destruct (Static.verticalHistory st ++ _) as [|s rest]; [constructor|].
  simpl. inversion Hpushed. assumption.
Qed.

Lemma recognizeGesture_stateInvariant (landmarks : option Hand) (st : Static.State) :
  stateInvariant st -> stateInvariant (snd (Static.recognizeGesture landmarks st)).
Proof.
  intros Hinv. pose proof Hinv as (Hprev & Hlen & Hsigns).
  unfold Static.recognizeGesture.
  destruct landmarks as [lms|]; [|exact Hinv].
  destruct (length lms =? 0); [exact Hinv|].
  destruct (Static.checkOrientation _) as [o|]; [|exact Hinv].
  destruct (Static.fingerStates lms) as [f|] eqn:Hf; [|exact Hinv].
  destruct (Static.updateHistory _ st) as [h|] eqn:Hh; [|exact Hinv].
  cbn [bind].
  pose proof (updateHistory_capped _ _ _ Hh Hlen) as Hcap.
  pose proof (updateHistory_signs _ _ _ Hh Hsigns) as Hs.
  pose proof (fingerStates_length _ _ Hf) as H21.
  destruct (_ && _).
  - repeat split; cbn; [exact H21|lia|constructor].
  - destruct (Static.letterBranches _ o f) as [[g|]|]; repeat split; cbn; assumption.
Qed.

Lemma stateAfter_stateInvariant (inputs : list (option Hand)) :
  stateInvariant (stateAfter inputs Static.initial).
Proof.
  unfold stateAfter.
  assert (H0 : stateInvariant Static.initial)
    by (repeat split; cbn; [lia|constructor]).
  revert H0. generalize Static.initial as st.
  induction inputs as [|l inputs IH]; intros st Hst; [exact Hst|].
  simpl. apply IH. exact (recognizeGesture_stateInvariant l st Hst).
Qed.

(** X2. After any sequence of calls from the freshly loaded module, however
    the arguments look (null, empty, malformed or well-formed), the
    remembered frame, if any, has at least 21 landmarks, the history has at
    most 20 entries, and each entry is -1 or +1. *)
Theorem reachable_stateInvariant (inputs : list (option Hand)) :
  let st := stateAfter inputs Static.initial in
  match Static.prevLandmarks st with
  | None => True
  | Some prev => 21 <= length prev
  end
  /\ length (Static.verticalHistory st) <= 20
  /\ Forall (fun s => s = (-1)%Z \/ s = 1%Z) (Static.verticalHistory st).
Proof. exact (stateAfter_stateInvariant inputs). Qed.

Lemma produced_members (g : Gesture) :
  In g ("NONE" :: "6-7" :: produced) -> In g Gesture_members.
Proof.
  intros H. simpl in H.
  repeat (destruct H as [<-|H]; [simpl; tauto|]). contradiction.
Qed.

(** X3. After any sequence of calls from the freshly loaded module, a call
    on a hand of at least 21 landmarks does not throw: it returns a label,
    and the label is a member of the declared [Gesture] type. *)
Theorem call_on_hand_returns_label (inputs : list (option Hand)) (lms : Hand) :
  21 <= length lms ->
  exists g : Gesture,
    fst (Static.recognizeGesture (Some lms) (stateAfter inputs Static.initial)) = Ok g
    /\ In g Gesture_members.
Proof.
  intros Hlen.
  pose proof (stateAfter_stateInvariant inputs) as (Hprev & _ & _).
  set (st := stateAfter inputs Static.initial) in *.
  destruct (hand_has_wrist_and_tip lms Hlen) as (wrist & indexTip & Hw & Ht).
  destruct (fingerStates_total lms Hlen) as [f Hf].
  destruct (updateHistory_total wrist st) as [h Hh].
  { intros E. rewrite E in Hprev. simpl in Hprev. lia. }
  rewrite <- Hw in Hh.
  pose proof (recognizeGesture_steps lms st _ f h
                (checkOrientation_some lms wrist indexTip Hw Ht) Hf Hh) as Hsteps.
  pose proof (letterBranches_total lms (orientationOf wrist indexTip) f Hlen) as Htot.
  assert (Hok : exists g, fst (Static.recognizeGesture (Some lms) st) = Ok g).
  { rewrite Hsteps. destruct (shakes h); [eexists; reflexivity|].
    destruct (Static.letterBranches _ _ f) as [[g|]|];
      [eexists; reflexivity|eexists; reflexivity|congruence]. }
  destruct Hok as [g Hg]. exists g. split; [exact Hg|].
  exact (produced_members g (recognizeGesture_labels _ _ _ Hg)).
Qed.

Lemma call_on_hand_returns_label_witness :
  exists g : Gesture,
    fst (Static.recognizeGesture
           (Some Samples.pinchedOpen)
           (stateAfter [None; Some []; Some (firstn 3 Samples.pinchedOpen);
                        Some (Samples.middleOnly 0.5)] Static.initial)) = Ok g
    /\ In g Gesture_members.
Proof. apply call_on_hand_returns_label. vm_compute. lia. Defined.

(** X4. No call of the classifier returns "Q": the branch at line 175 sits
    behind a test that [thumbOpen] is false. *)
Theorem never_Q (landmarks : option Hand) (st : Static.State) :
  fst (Static.recognizeGesture landmarks st) <> Ok "Q".
Proof.
  intros H. apply recognizeGesture_labels in H. simpl in H.
  repeat (destruct H as [H|H]; [discriminate H|]). exact H.
Qed.

(** X5. A call that returns a letter leaves [prevLandmarks] as it was and
    keeps the updated history. *)
Theorem letter_keeps_prevLandmarks (lms : Hand) (st st' : Static.State) (g : Gesture) :
  Static.recognizeGesture (Some lms) st = (Ok g, st') ->
  In g produced ->
  Static.prevLandmarks st' = Static.prevLandmarks st
  /\ Static.updateHistory (nth_error lms 0) st = Ok (Static.verticalHistory st').
Proof.
  unfold Static.recognizeGesture. intros H Hg.
  assert (Hn6 : g <> "6-7") by exact (not_shake_label g Hg).
  assert (HnN : g <> "NONE").
  { intros ->. simpl in Hg. repeat (destruct Hg as [Hg|Hg]; [discriminate Hg|]). exact Hg. }
  destruct (length lms =? 0); [injection H as <- _; congruence|].
  destruct (Static.checkOrientation _) as [o|]; [|discriminate H].
  destruct (Static.fingerStates lms) as [f|]; [|discriminate H].
  destruct (Static.updateHistory _ st) as [h|]; [|discriminate H].
  cbn [bind] in H.
  destruct (_ && _); [injection H as <- _; congruence|].
  destruct (Static.letterBranches lms o f) as [[g'|]|]; [| |discriminate H].
  - injection H as _ <-. split; reflexivity.
  - injection H as <- _. congruence.
Qed.

Lemma letter_keeps_prevLandmarks_witness :
  Static.prevLandmarks (Static.mkState None []) = Static.prevLandmarks Static.initial
  /\ Static.updateHistory (nth_error Samples.fistThumbOut 0) Static.initial = Ok [].
Proof.
  apply (letter_keeps_prevLandmarks Samples.fistThumbOut Static.initial
           (Static.mkState None []) "A").
  - vm_compute. reflexivity.
  - simpl. tauto.
Defined.

Lemma shake_or_none_records_frame_witness :
  Static.prevLandmarks (Static.mkState (Some (Samples.middleOnly 0.5)) [])
  = Some (Samples.middleOnly 0.5).
Proof.
  apply (shake_or_none_records_frame (Samples.middleOnly 0.5) Static.initial
           (Static.mkState (Some (Samples.middleOnly 0.5)) []) "NONE").
  - vm_compute. reflexivity.
  - discriminate.
  - right. reflexivity.
Defined.

(** A "6-7" return needs an updated history of more than 6 entries. *)
Lemma shake_needs_history (landmarks : option Hand) (st : Static.State) :
  fst (Static.recognizeGesture landmarks st) = Ok "6-7" ->
  Static.prevLandmarks st <> None /\ 6 <= length (Static.verticalHistory st)
  \/ 7 <= length (Static.verticalHistory st).
Proof.
  unfold Static.recognizeGesture. intros H.
  destruct landmarks as [lms|]; [|discriminate H].
  destruct (length lms =? 0); [discriminate H|].
  destruct (Static.checkOrientation _) as [o|]; [|discriminate H].
  destruct (Static.fingerStates lms) as [f|]; [|discriminate H].
  destruct (Static.updateHistory _ st) as [h|] eqn:Hh; [|discriminate H].
  cbn [bind] in H.
  destruct (Nat.ltb_spec 6 (length h)) as [Hlong|Hshort]; cbn [andb] in H.
  - pose proof (updateHistory_grows _ _ _ Hh) as Hgrow.
    destruct (Static.prevLandmarks st) as [prev|] eqn:Hprev.
    + left. split; [discriminate|lia].
    + right. unfold Static.updateHistory in Hh. rewrite Hprev in Hh.
      injection Hh as <-. lia.
  - exfalso.
    destruct (Static.letterBranches lms o f) as [[g|]|] eqn:E; try discriminate H.
    injection H as Hg.
    exact (not_shake_label g (letterBranches_produced _ _ _ _ E) Hg).
Qed.

(** After [n] calls from the initial state either nothing was recorded yet
    or the history has fewer than [n] entries. *)
Lemma history_after_calls (inputs : list (option Hand)) :
  let st := stateAfter inputs Static.initial in
  (Static.prevLandmarks st = None /\ Static.verticalHistory st = [])
  \/ S (length (Static.verticalHistory st)) <= length inputs.
Proof.
  induction inputs as [|l inputs IH] using rev_ind; [left; split; reflexivity|].
  cbv zeta in *. unfold stateAfter in *. rewrite fold_left_app. cbn [fold_left].
  set (st := fold_left _ inputs Static.initial) in *.
  rewrite length_app. cbn [length].
  assert (Hstep : length (Static.verticalHistory (snd (Static.recognizeGesture l st)))
                  <= S (length (Static.verticalHistory st))
                  /\ (Static.prevLandmarks st = None ->
                      Static.verticalHistory (snd (Static.recognizeGesture l st))
                      = Static.verticalHistory st
                      \/ Static.verticalHistory (snd (Static.recognizeGesture l st)) = [])).
  { unfold Static.recognizeGesture.
    destruct l as [lms|]; [|split; [cbn [snd bind]; lia|left; reflexivity]].
    destruct (length lms =? 0); [split; [cbn [snd bind]; lia|left; reflexivity]|].
    destruct (Static.checkOrientation _) as [o|]; [|split; [cbn [snd bind]; lia|left; reflexivity]].
    destruct (Static.fingerStates lms) as [f|]; [|split; [cbn [snd bind]; lia|left; reflexivity]].
    destruct (Static.updateHistory _ st) as [h|] eqn:Hh;
      [|split; [cbn [snd bind]; lia|left; reflexivity]].
    cbn [bind]. pose proof (updateHistory_grows _ _ _ Hh) as Hgrow.
    assert (Hnone : Static.prevLandmarks st = None -> h = Static.verticalHistory st).
    { intros Hp. unfold Static.updateHistory in Hh. rewrite Hp in Hh. congruence. }
    destruct (_ && _); [split; [cbn; lia|right; reflexivity]|].
    destruct (Static.letterBranches lms o f) as [[g|]|]; cbn;
      (split; [exact Hgrow|intros Hp; left; exact (Hnone Hp)]). }
  destruct Hstep as [Hgrow Hnone].
  destruct IH as [[Hp Hh]|Hlen].
  - destruct (Hnone Hp) as [E|E]; rewrite E; [rewrite Hh|]; simpl; right; lia.
  - right. lia.
Qed.

(** X7. From the freshly loaded module the shake label cannot come before
    the eighth call: after fewer than 7 calls, the next call does not return
    "6-7", whatever the arguments were. *)
Theorem no_shake_before_eighth_call (inputs : list (option Hand)) (landmarks : option Hand) :
  length inputs < 7 ->
  fst (Static.recognizeGesture landmarks (stateAfter inputs Static.initial)) <> Ok "6-7".
Proof.
  intros Hfew Hshake.
  pose proof (history_after_calls inputs) as Hhist. cbv zeta in Hhist.
  destruct (shake_needs_history _ _ Hshake) as [[Hprev Hlen]|Hlen];
    destruct Hhist as [[Hp Hh]|Hh]; try congruence; try lia.
  rewrite Hh in Hlen. simpl in Hlen. lia.
Qed.

Lemma no_shake_before_eighth_call_witness :
  fst (Static.recognizeGesture
         (Some (Samples.middleOnly 0.9))
         (stateAfter [Some (Samples.middleOnly 0.5); Some (Samples.middleOnly 0.7);
                      Some (Samples.middleOnly 0.5)] Static.initial))
  <> Ok "6-7".
Proof. apply no_shake_before_eighth_call. simpl. lia. Defined.

(** *** The finger groups *)

(** Where a label other than the shake label comes from. *)
Lemma label_source (lms : Hand) (st : Static.State) (g : Gesture) :
  fst (Static.recognizeGesture (Some lms) st) = Ok g ->
  g <> "6-7" ->
  lms = [] /\ g = "NONE"
  \/ exists o f r,
      Static.checkOrientation (Some lms) = Ok o /\
      Static.fingerStates lms = Ok f /\
      Static.letterBranches lms o f = Ok r /\
      g = match r with Some letter => letter | None => "NONE" end.
Proof.
  unfold Static.recognizeGesture. intros H Hg.
  destruct lms as [|l0 rest]; [left; split; [reflexivity|injection H as <-; reflexivity]|].
  right. change (length (l0 :: rest) =? 0) with false in H. cbv iota in H.
  destruct (Static.checkOrientation _) as [o|]; [|discriminate H].
  destruct (Static.fingerStates _) as [f|]; [|discriminate H].
  destruct (Static.updateHistory _ st) as [h|]; [|discriminate H].
  cbn [bind] in H.
  destruct (_ && _); [injection H as <-; congruence|].
  destruct (Static.letterBranches _ o f) as [[letter|]|] eqn:E; [| |discriminate H];
    injection H as <-; exists o, f;
    [exists (Some letter)|exists None];
    (split; [reflexivity|split; [reflexivity|split; [exact E|reflexivity]]]).
Qed.

(** X8. Whenever the classifier of gesture-recognizer.ts returns a label
    other than "6-7", the stateless classifier of the dynamic-gesture file
    returns the same label for the same argument. *)
Theorem stateless_agrees (landmarks : option Hand) (st : Static.State) (g : Gesture) :
  fst (Static.recognizeGesture landmarks st) = Ok g ->
  g <> "6-7" ->
  Stateless.recognizeGesture landmarks = Ok g.
Proof.
  intros H Hg. destruct landmarks as [lms|]; [|exact H].
  destruct (label_source lms st g H Hg) as [[-> ->]|(o & f & r & Ho & Hf & Hr & ->)];
    [reflexivity|].
  unfold Stateless.recognizeGesture, Stateless.checkOrientation.
  pose proof (fingerStates_length _ _ Hf) as Hlen.
  destruct (Nat.eqb_spec (length lms) 0) as [H0|_]; [lia|].
  rewrite Ho, Hf. cbn [bind]. rewrite Hr. reflexivity.
Qed.

Lemma stateless_agrees_witness :
  Stateless.recognizeGesture (Some Samples.ringOnlyPinched) = Ok "O".
Proof.
  apply (stateless_agrees (Some Samples.ringOnlyPinched) Static.initial "O").
  - vm_compute. reflexivity.
  - discriminate.
Defined.

Lemma fingers_of_states (lms : Hand) (f : Static.Fingers) :
  Static.fingerStates lms = Ok f ->
  fingerPattern lms
  = Ok (Static.indexOpen f, Static.middleOpen f, Static.ringOpen f, Static.pinkyOpen f)
  /\ Static.isThumbExtended (nth_error lms 4) (nth_error lms 3) (nth_error lms 5)
     = Ok (Static.thumbOpen f)
  /\ Static.dist (nth_error lms 4) (nth_error lms 8) = Ok (Static.dThumbIndex f).
Proof.
  unfold Static.fingerStates, fingerPattern. intros H.
  destruct (Static.isThumbExtended _ _ _) as [t|]; [|discriminate H].
  destruct (Static.isExtended _ (nth_error lms 8) _) as [i|]; [|discriminate H].
  destruct (Static.isExtended _ (nth_error lms 12) _) as [m|]; [|discriminate H].
  destruct (Static.isExtended _ (nth_error lms 16) _) as [r|]; [|discriminate H].
  destruct (Static.isExtended _ (nth_error lms 20) _) as [p|]; [|discriminate H].
  cbn [bind] in H |- *.
  destruct (Static.dist (nth_error lms 4) (nth_error lms 8)) as [d1|]; [|discriminate H].
  destruct (Static.dist (nth_error lms 4) (nth_error lms 12)) as [d2|]; [|discriminate H].
  destruct (Static.dist (nth_error lms 8) (nth_error lms 12)) as [d3|]; [|discriminate H].
  cbn [bind] in H. injection H as <-. cbn. repeat split.
Qed.

(** What a returned label other than "6-7" rests on: the letter branches run
    on finger states that carry the hand's pattern, thumb state and
    thumb-index distance. *)
Lemma label_of_hand (lms : Hand) (st : Static.State) (g : Gesture)
      (pat : bool * bool * bool * bool) :
  fst (Static.recognizeGesture (Some lms) st) = Ok g ->
  g <> "6-7" ->
  fingerPattern lms = Ok pat ->
  exists o t d1 d2 d3 r,
    Static.isThumbExtended (nth_error lms 4) (nth_error lms 3) (nth_error lms 5) = Ok t /\
    Static.dist (nth_error lms 4) (nth_error lms 8) = Ok d1 /\
    Static.letterBranches lms o
      (Static.mkFingers t (fst (fst (fst pat))) (snd (fst (fst pat))) (snd (fst pat))
                        (snd pat) d1 d2 d3) = Ok r /\
    g = match r with Some letter => letter | None => "NONE" end.
Proof.
  intros H Hg Hpat.
  destruct (label_source lms st g H Hg) as [[-> ->]|(o & f & r & Ho & Hf & Hr & ->)].
  - discriminate Hpat.
  - destruct (fingers_of_states lms f Hf) as (Hp & Ht & Hd).
    rewrite Hp in Hpat. injection Hpat as <-.
    destruct f as [t i m r' p d1 d2 d3]. cbn in *.
    exists o, t, d1, d2, d3, r. repeat split; assumption.
Qed.

Lemma returned_label (r : Result Gesture) :
  r <> TypeError -> r <> Ok "6-7" -> exists g, r = Ok g /\ g <> "6-7".
Proof.
  intros Ht Hs. destruct r as [g|]; [|exfalso; apply Ht; reflexivity].
  exists g. split; [reflexivity|]. intros ->. apply Hs. reflexivity.
Qed.

(** X9. Index, middle and ring finger extended and the pinky not: unless
    the call throws or returns the shake label, it returns "W", whatever the
    thumb and the orientation. *)
Theorem three_fingers_is_W (lms : Hand) (st : Static.State) :
  fingerPattern lms = Ok (true, true, true, false) ->
  fst (Static.recognizeGesture (Some lms) st) <> TypeError ->
  fst (Static.recognizeGesture (Some lms) st) <> Ok "6-7" ->
  fst (Static.recognizeGesture (Some lms) st) = Ok "W".
Proof.
  intros Hpat Hthrow Hshake.
  destruct (returned_label _ Hthrow Hshake) as (g & H & Hg). rewrite H. f_equal.
  destruct (label_of_hand lms st g _ H Hg Hpat) as (o & t & d1 & d2 & d3 & r & _ & _ & Hr & ->).
  unfold Static.letterBranches in Hr. hand_cbn Hr. cbn [fst snd negb andb] in Hr.
  injection Hr as <-. reflexivity.
Qed.

Lemma three_fingers_is_W_witness :
  fst (Static.recognizeGesture
         (Some (Samples.mkHand 0.5 0.9 Samples.thumbOut true true true false))
         Static.initial) = Ok "W".
Proof.
  apply three_fingers_is_W.
  - vm_compute. reflexivity.
  - vm_compute. discriminate.
  - vm_compute. discriminate.
Defined.

(** X10. Index finger curled and middle, ring and pinky extended: unless
    the call throws or returns the shake label, it returns "F". *)
Theorem index_curled_is_F (lms : Hand) (st : Static.State) :
  fingerPattern lms = Ok (false, true, true, true) ->
  fst (Static.recognizeGesture (Some lms) st) <> TypeError ->
  fst (Static.recognizeGesture (Some lms) st) <> Ok "6-7" ->
  fst (Static.recognizeGesture (Some lms) st) = Ok "F".
Proof.
  intros Hpat Hthrow Hshake.
  destruct (returned_label _ Hthrow Hshake) as (g & H & Hg). rewrite H. f_equal.
  destruct (label_of_hand lms st g _ H Hg Hpat) as (o & t & d1 & d2 & d3 & r & _ & _ & Hr & ->).
  unfold Static.letterBranches in Hr. hand_cbn Hr. cbn [fst snd negb andb] in Hr.
  injection Hr as <-. reflexivity.
Qed.

Lemma index_curled_is_F_witness :
  fst (Static.recognizeGesture
         (Some (Samples.mkHand 0.5 0.9 Samples.thumbOut false true true true))
         Static.initial) = Ok "F".
Proof.
  apply index_curled_is_F.
  - vm_compute. reflexivity.
  - vm_compute. discriminate.
  - vm_compute. discriminate.
Defined.

(** X11. All four fingers extended, with [d] the distance between thumb tip
    and index fingertip: unless the call throws or returns the shake label,
    it returns "F" when [d < 0.06], otherwise "C" when [0.05 < d < 0.25],
    otherwise "B"; never "O" and never "NONE". *)
Theorem open_hand_is_F_C_or_B (lms : Hand) (st : Static.State) (d : float) :
  fingerPattern lms = Ok (true, true, true, true) ->
  Static.dist (nth_error lms 4) (nth_error lms 8) = Ok d ->
  fst (Static.recognizeGesture (Some lms) st) <> TypeError ->
  fst (Static.recognizeGesture (Some lms) st) <> Ok "6-7" ->
  fst (Static.recognizeGesture (Some lms) st)
  = Ok (if JS.lt d 0.06 then "F"
        else if JS.gt d 0.05 && JS.lt d 0.25 then "C" else "B").
Proof.
  intros Hpat Hd Hthrow Hshake.
  destruct (returned_label _ Hthrow Hshake) as (g & H & Hg). rewrite H. f_equal.
  destruct (label_of_hand lms st g _ H Hg Hpat)
    as (o & t & d1 & d2 & d3 & r & _ & Hd1 & Hr & ->).
  rewrite Hd in Hd1. injection Hd1 as <-.
  unfold Static.letterBranches in Hr.
  cbn [Static.thumbOpen Static.indexOpen Static.middleOpen Static.ringOpen
       Static.pinkyOpen Static.dThumbIndex fst snd negb andb] in Hr.
  unfold Static.near in Hr at 1. rewrite Hd in Hr. cbn [bind] in Hr.
  destruct (JS.lt d 0.06) eqn:Hnear.
  - injection Hr as <-. reflexivity.
  - unfold andJ, Static.near in Hr. rewrite Hd in Hr. cbn [bind] in Hr.
    rewrite Hnear in Hr. cbn [bind] in Hr.
    destruct (JS.gt d 0.05 && JS.lt d 0.25); injection Hr as <-; reflexivity.
Qed.

Lemma open_hand_is_F_C_or_B_witness :
  fst (Static.recognizeGesture (Some (Samples.openAt 0.5)) Static.initial) = Ok "C".
Proof.
  refine (open_hand_is_F_C_or_B (Samples.openAt 0.5) Static.initial _ _ eq_refl _ _).
  - vm_compute. reflexivity.
  - vm_compute. discriminate.
  - vm_compute. discriminate.
Defined.

(** X12. "O" and "NONE" are returned for a non-empty array only when its
    extended-finger pattern is one of the nine that no finger group lists:
    for the patterns of the groups (none, index only, index and middle,
    index to ring, pinky only, all but index, all four) some other letter is
    returned. *)
Theorem O_and_NONE_only_for_unlisted (lms : Hand) (st : Static.State) (g : Gesture) :
  fst (Static.recognizeGesture (Some lms) st) = Ok g ->
  g = "O" \/ g = "NONE" ->
  lms <> [] ->
  exists pat, fingerPattern lms = Ok pat /\ In pat unlistedPatterns.
Proof.
  intros H Hg Hne.
  assert (Hns : g <> "6-7") by (destruct Hg as [-> | ->]; discriminate).
  destruct (label_source lms st g H Hns) as [[-> _]|(o & f & r & _ & Hf & Hr & Hgr)];
    [congruence|].
  destruct (fingers_of_states lms f Hf) as (Hp & _ & _).
  eexists. split; [exact Hp|].
  destruct f as [t i m r' p d1 d2 d3].
  unfold Static.letterBranches in Hr.
  cbn [Static.thumbOpen Static.indexOpen Static.middleOpen Static.ringOpen
       Static.pinkyOpen Static.dThumbIndex] in Hr |- *.
  destruct i, m, r', p; try (simpl; tauto); exfalso;
    cbn [negb andb bind andJ orJ] in Hr;
    repeat (split_result Hr; cbn [bind andJ orJ] in Hr); try discriminate Hr;
    injection Hr as <-; destruct Hg as [-> | ->]; discriminate Hgr.
Qed.

Lemma O_and_NONE_only_for_unlisted_witness :
  exists pat, fingerPattern Samples.ringOnlyPinched = Ok pat /\ In pat unlistedPatterns.
Proof.
  apply (O_and_NONE_only_for_unlisted Samples.ringOnlyPinched Static.initial "O").
  - vm_compute. reflexivity.
  - left. reflexivity.
  - discriminate.
Defined.

(** X13. All four fingers curled: unless the call throws or returns the
    shake label, it returns "A" when the thumb is extended, and "T" when the
    thumb is not extended and its tip is within 0.05 of the index MCP joint,
    wherever the thumb tip is relative to the joints tested later (for "N",
    "M" and "S"). *)
Theorem fist_is_A_or_T (lms : Hand) (st : Static.State) (t : bool) :
  fingerPattern lms = Ok (false, false, false, false) ->
  Static.isThumbExtended (nth_error lms 4) (nth_error lms 3) (nth_error lms 5) = Ok t ->
  (t = false -> Static.near (nth_error lms 4) (nth_error lms 5) 0.05 = Ok true) ->
  fst (Static.recognizeGesture (Some lms) st) <> TypeError ->
  fst (Static.recognizeGesture (Some lms) st) <> Ok "6-7" ->
  fst (Static.recognizeGesture (Some lms) st) = Ok (if t then "A" else "T").
Proof.
  intros Hpat Ht Hnear Hthrow Hshake.
  destruct (returned_label _ Hthrow Hshake) as (g & H & Hg). rewrite H. f_equal.
  destruct (label_of_hand lms st g _ H Hg Hpat)
    as (o & t' & d1 & d2 & d3 & r & Ht' & _ & Hr & ->).
  rewrite Ht in Ht'. injection Ht' as <-.
  unfold Static.letterBranches in Hr.
  cbn [Static.thumbOpen Static.indexOpen Static.middleOpen Static.ringOpen
       Static.pinkyOpen Static.dThumbIndex fst snd negb andb] in Hr.
  destruct t; [injection Hr as <-; reflexivity|].
  rewrite (Hnear eq_refl) in Hr. unfold orJ in Hr at 1.
  destruct (Static.near (nth_error lms 4) (nth_error lms 6) 0.05) as [[|]|];
    cbn [bind] in Hr; try discriminate Hr; injection Hr as <-; reflexivity.
Qed.

Lemma fist_is_A_or_T_witness :
  fst (Static.recognizeGesture
         (Some (Samples.mkHand 0.5 0.9 (-0.05, -0.18)%float false false false false))
         Static.initial) = Ok "T".
Proof.
  refine (fist_is_A_or_T _ Static.initial false _ _ _ _ _).
  - vm_compute. reflexivity.
  - vm_compute. reflexivity.
  - intros _. vm_compute. reflexivity.
  - vm_compute. discriminate.
  - vm_compute. discriminate.
Defined.

(** ** Orientation detector: edge behaviour *)

(** X14. The orientation detector answers "NONE" exactly for a missing or
    empty array: on a non-empty array it answers "SIDE", "UP" or "DOWN", or
    throws. *)
Theorem checkOrientation_NONE_iff (landmarks : option Hand) :
  Static.checkOrientation landmarks = Ok "NONE"
  <-> landmarks = None \/ landmarks = Some [].
Proof.
  split.
  - destruct landmarks as [[|l0 rest]|]; [right; reflexivity| |left; reflexivity].
    unfold Static.checkOrientation.
    change (length (l0 :: rest) =? 0) with false. cbv iota. intros H. exfalso.
    repeat split_result H; discriminate H.
  - intros [-> | ->]; reflexivity.
Qed.

(** X15. On a non-empty array of fewer than 9 landmarks the orientation
    detector throws: landmark 8 is missing. *)
Theorem checkOrientation_short_throws (lms : Hand) :
  1 <= length lms ->
  length lms < 9 ->
  Static.checkOrientation (Some lms) = TypeError.
Proof.
  intros Hne Hshort. unfold Static.checkOrientation.
  destruct (Nat.eqb_spec (length lms) 0) as [H0|_]; [lia|].
  assert (Htip : nth_error lms 8 = None) by (apply nth_error_None; lia).
  rewrite Htip. reflexivity.
Qed.

Lemma checkOrientation_short_throws_witness :
  Static.checkOrientation (Some (firstn 8 Samples.pinchedOpen)) = TypeError.
Proof. apply checkOrientation_short_throws; vm_compute; lia. Defined.

(** ** Gesture buffer: further properties *)

(** X16. In a buffer of capacity at least 1, the frame just added is the
    last (current) frame, whatever the buffer held. *)
Theorem added_frame_is_current (frame : Frame) (b : Dynamic.GestureBuffer) :
  (1 <= Dynamic.maxSize b)%Z ->
  exists earlier : list Frame,
    Dynamic.getBuffer (Dynamic.add frame b) = earlier ++ [frame].
Proof.
  intros Hcap. unfold Dynamic.getBuffer, Dynamic.add.
  destruct (Z.ltb_spec (Dynamic.maxSize b)
                       (Z.of_nat (length (Dynamic.buffer b ++ [frame])))) as [Hlt|Hge];
    cbn [Dynamic.buffer].
  - destruct (Dynamic.buffer b) as [|oldest others].
    + simpl in Hlt. lia.
    + exists others. reflexivity.
  - exists (Dynamic.buffer b). reflexivity.
Qed.

Lemma added_frame_is_current_witness :
  exists earlier : list Frame,
    Dynamic.getBuffer (Dynamic.add [Samples.fistThumbOut] Samples.wave20)
    = earlier ++ [[Samples.fistThumbOut]].
Proof. apply added_frame_is_current. vm_compute. discriminate. Defined.

Lemma add_length_bound (frame : Frame) (b : Dynamic.GestureBuffer) :
  (Z.of_nat (length (Dynamic.buffer b)) <= Z.max (Dynamic.maxSize b) 0)%Z ->
  (Z.of_nat (length (Dynamic.buffer (Dynamic.add frame b)))
   <= Z.max (Dynamic.maxSize b) 0)%Z.
Proof.
  intros H. unfold Dynamic.add.
  destruct (Z.ltb_spec (Dynamic.maxSize b)
                       (Z.of_nat (length (Dynamic.buffer b ++ [frame])))) as [Hlt|Hge];
    cbn [Dynamic.buffer]; rewrite length_app in *; cbn [length] in *.
  - destruct (Dynamic.buffer b) as [|oldest others]; cbn [length app tl] in *;
      rewrite ?length_app; cbn [length]; lia.
  - lia.
Qed.

Lemma run_length_bound (ops : list BufferOps.Op) (b : Dynamic.GestureBuffer) :
  (Z.of_nat (length (Dynamic.buffer b)) <= Z.max (Dynamic.maxSize b) 0)%Z ->
  (Z.of_nat (length (Dynamic.buffer (BufferOps.run ops b)))
   <= Z.max (Dynamic.maxSize b) 0)%Z.
Proof.
  revert b. induction ops as [|o ops IH]; intros b Hb; [exact Hb|].
  unfold BufferOps.run in *. cbn [fold_left].
  destruct o as [frame|]; cbn [BufferOps.step].
  - replace (Dynamic.maxSize b) with (Dynamic.maxSize (Dynamic.add frame b))
      by (unfold Dynamic.add; destruct (_ <? _)%Z; reflexivity).
    apply IH.
    replace (Dynamic.maxSize (Dynamic.add frame b)) with (Dynamic.maxSize b)
      by (unfold Dynamic.add; destruct (_ <? _)%Z; reflexivity).
    exact (add_length_bound frame b Hb).
  - change (Dynamic.maxSize b) with (Dynamic.maxSize (Dynamic.clear b)).
    apply IH. cbn. lia.
Qed.

(** X17. A buffer built with a capacity below 5 (zero and negative
    capacities included, for which the buffer stays empty) never gives a
    match, whatever is added to it. *)
Theorem small_capacity_never_matches (c : Z) (ops : list BufferOps.Op) :
  (c < 5)%Z ->
  Dynamic.recognizeDynamicGesture
    (BufferOps.run ops (Dynamic.new_GestureBuffer (Some c))) = Ok None.
Proof.
  intros Hc.
  pose proof (run_length_bound ops (Dynamic.new_GestureBuffer (Some c))) as H.
  cbn [Dynamic.new_GestureBuffer Dynamic.buffer Dynamic.maxSize length] in H.
  unfold Dynamic.recognizeDynamicGesture, Dynamic.getBuffer.
  destruct (Nat.ltb_spec
              (length (Dynamic.buffer
                         (BufferOps.run ops (Dynamic.new_GestureBuffer (Some c))))) 5)
    as [_|Hge]; [reflexivity|lia].
Qed.

Lemma small_capacity_never_matches_witness :
  Dynamic.recognizeDynamicGesture
    (BufferOps.run (map BufferOps.Add (Samples.waveFrames 20))
                   (Dynamic.new_GestureBuffer (Some 4%Z))) = Ok None.
Proof. apply small_capacity_never_matches. lia. Defined.

(** ** Dynamic gesture matcher: what each label needs *)

Lemma someJ_true_nonempty {A : Type} (p : A -> Result bool) (a : list A) :
  someJ p a = Ok true -> a <> [].
Proof. destruct a; [discriminate|discriminate]. Qed.

Lemma mapJ_length {A B : Type} (f : A -> Result B) (a : list A) (vs : list B) :
  mapJ f a = Ok vs -> length vs = length a.
Proof.
  revert vs. induction a as [|e rest IH]; intros vs H; cbn [mapJ] in H.
  - injection H as <-. reflexivity.
  - destruct (f e) as [v|]; [|discriminate H]. cbn [bind] in H.
    destruct (mapJ f rest) as [vs'|]; [|discriminate H]. cbn [bind] in H.
    injection H as <-. simpl. rewrite (IH vs' eq_refl). reflexivity.
Qed.

Lemma forOf_length {A V : Type} (body : list V -> A -> Result (list V))
      (a : list A) (acc r : list V) :
  (forall acc0 e acc1, body acc0 e = Ok acc1 -> length acc1 <= S (length acc0)) ->
  forOf body a acc = Ok r ->
  length r <= length acc + length a.
Proof.
  intros Hbody. revert acc. induction a as [|e rest IH]; intros acc H; cbn [forOf] in H.
  - injection H as <-. simpl. lia.
  - destruct (body acc e) as [acc1|] eqn:E; [|discriminate H]. cbn [bind] in H.
    specialize (IH acc1 H). specialize (Hbody _ _ _ E). simpl. lia.
Qed.

Lemma detectHello_needs (frames : list Frame) :
  Dynamic.detectHello frames = Ok true -> 15 <= length frames.
Proof.
  unfold Dynamic.detectHello, Dynamic.openHandCount. intros H.
  destruct (filterJ Dynamic.hasOpenHand (JS.slice_last 20 frames)) as [kept|] eqn:Hk;
    [|discriminate H].
  cbn [bind] in H. apply filterJ_length in Hk. rewrite slice_last_length in Hk.
  destruct (Nat.ltb_spec 14 (length kept)) as [Hmany|_]; [lia|discriminate H].
Qed.

Lemma detectYes_needs (frames : list Frame) (currentFrame : Frame) :
  Dynamic.detectYes frames currentFrame = Ok true -> 9 <= length frames.
Proof.
  unfold Dynamic.detectYes. intros H.
  destruct (findJ Dynamic.checkYShape currentFrame) as [[yHand|]|];
    cbn [bind] in H; try discriminate H.
  match type of H with
  | context [bind ?r _] => destruct r as [hist|] eqn:Hh; [|discriminate H]
  end.
  cbn [bind] in H.
  apply forOf_length in Hh.
  - rewrite slice_last_length in Hh. cbn [length] in Hh.
    destruct (Nat.ltb_spec 8 (length hist)) as [Hmany|_];
      [unfold Frame in *; lia|discriminate H].
  - intros acc0 frame acc1 Hbody.
    destruct (findJ Dynamic.checkYShape frame) as [[h|]|]; cbn [bind] in Hbody;
      try discriminate Hbody; injection Hbody as <-;
      try rewrite length_app; simpl; lia.
Qed.

Lemma detectNo_needs (frames : list Frame) (currentFrame : Frame) :
  Dynamic.detectNo frames currentFrame = Ok true -> 6 <= length frames.
Proof.
  unfold Dynamic.detectNo. intros H.
  destruct (findJ Dynamic.isTapPose currentFrame) as [[tapHand|]|];
    cbn [bind] in H; try discriminate H.
  apply someJ_true_nonempty in H. unfold JS.slice_neg in H.
  destruct (Nat.le_gt_cases (length frames) 5) as [Hshort|Hlong]; [|lia].
  exfalso. apply H.
  replace (length frames - 5 - (length frames - 15)) with 0 by lia. reflexivity.
Qed.

Lemma detectHelp_needs (frames : list Frame) (currentFrame : Frame) :
  Dynamic.detectHelp frames currentFrame = Ok true ->
  6 <= length frames /\ 2 <= length currentFrame.
Proof.
  unfold Dynamic.detectHelp. intros H.
  destruct (Nat.leb_spec 2 (length currentFrame)) as [Htwo|_]; [|discriminate H].
  split; [|exact Htwo].
  destruct (nth_error currentFrame 0) as [hand1|]; [|discriminate H].
  destruct (nth_error currentFrame 1) as [hand2|]; [|discriminate H].
  destruct (andJ (Dynamic.isFist hand1) (Dynamic.isFlat hand2)) as [c1|];
    [|discriminate H].
  cbn [bind] in H.
  assert (Hany : forall fistHand flatHand,
             (dProximity <- Dynamic.dist (nth_error fistHand 0) (nth_error flatHand 9) ;;
              if JS.lt dProximity 0.15 then
                avgYs <- mapJ Dynamic.averageY (JS.slice_last 10 frames) ;;
                if 5 <? length avgYs then
                  Ok (JS.gt (nth 0 avgYs zero - nth (length avgYs - 1) avgYs zero) 0.1)
                else Ok false
              else Ok false)%js = Ok true -> 6 <= length frames).
  { intros fistHand flatHand Hd.
    destruct (Dynamic.dist _ _) as [d|]; [|discriminate Hd]. cbn [bind] in Hd.
    destruct (JS.lt d 0.15); [|discriminate Hd].
    destruct (mapJ Dynamic.averageY (JS.slice_last 10 frames)) as [avgYs|] eqn:Hm;
      [|discriminate Hd].
    cbn [bind] in Hd. apply mapJ_length in Hm. rewrite slice_last_length in Hm.
    destruct (Nat.ltb_spec 5 (length avgYs)) as [Hmany|_]; [lia|discriminate Hd]. }
  destruct c1; cbn [bind] in H.
  - exact (Hany _ _ H).
  - destruct (andJ (Dynamic.isFist hand2) (Dynamic.isFlat hand1)) as [[|]|];
      cbn [bind] in H; try discriminate H.
    exact (Hany _ _ H).
Qed.

Lemma detectTime_needs (currentFrame : Frame) :
  Dynamic.detectTime currentFrame = Ok true -> 2 <= length currentFrame.
Proof.
  unfold Dynamic.detectTime. intros H.
  destruct (Nat.leb_spec 2 (length currentFrame)) as [Htwo|_]; [exact Htwo|discriminate H].
Qed.

(** The detector behind each label. *)
Lemma match_source (b : Dynamic.GestureBuffer) (g : string) :
  Dynamic.recognizeDynamicGesture b = Ok (Some g) ->
  5 <= length (Dynamic.getBuffer b) /\
  exists currentFrame,
    nth_error (Dynamic.getBuffer b) (length (Dynamic.getBuffer b) - 1) = Some currentFrame /\
    (g = "HELLO" /\ Dynamic.detectHello (Dynamic.getBuffer b) = Ok true
     \/ g = "YES" /\ Dynamic.detectYes (Dynamic.getBuffer b) currentFrame = Ok true
     \/ g = "NO" /\ Dynamic.detectNo (Dynamic.getBuffer b) currentFrame = Ok true
     \/ g = "HELP" /\ Dynamic.detectHelp (Dynamic.getBuffer b) currentFrame = Ok true
     \/ g = "TIME" /\ Dynamic.detectTime currentFrame = Ok true).
Proof.
  unfold Dynamic.recognizeDynamicGesture. intros H.
  destruct (Nat.ltb_spec (length (Dynamic.getBuffer b)) 5) as [_|Hlen]; [discriminate H|].
  split; [exact Hlen|].
  destruct (nth_error _ _) as [currentFrame|]; [|discriminate H].
  exists currentFrame. split; [reflexivity|].
  destruct (length currentFrame =? 0); [discriminate H|].
  destruct (Dynamic.detectHello _) as [[|]|]; cbn [bind] in H; try discriminate H;
    [injection H as <-; tauto|].
  destruct (Dynamic.detectYes _ _) as [[|]|]; cbn [bind] in H; try discriminate H;
    [injection H as <-; tauto|].
  destruct (Dynamic.detectNo _ _) as [[|]|]; cbn [bind] in H; try discriminate H;
    [injection H as <-; tauto|].
  destruct (Dynamic.detectHelp _ _) as [[|]|]; cbn [bind] in H; try discriminate H;
    [injection H as <-; tauto|].
  destruct (Dynamic.detectTime _) as [[|]|]; cbn [bind] in H; try discriminate H.
  injection H as <-. tauto.
Qed.

(** X18. Each label needs a minimum of buffered frames: "HELLO" at least
    15, "YES" at least 9, "NO" and "HELP" at least 6 (and "TIME", like every
    match, at least 5). *)
Theorem label_needs_history (b : Dynamic.GestureBuffer) (g : string) :
  Dynamic.recognizeDynamicGesture b = Ok (Some g) ->
  let n := length (Dynamic.getBuffer b) in
  5 <= n /\
  (g = "HELLO" -> 15 <= n) /\ (g = "YES" -> 9 <= n) /\
  (g = "NO" -> 6 <= n) /\ (g = "HELP" -> 6 <= n).
Proof.
  intros H n. subst n.
  destruct (match_source b g H) as (Hlen & cf & _ & Hsrc).
  split; [exact Hlen|].
  destruct Hsrc as [[-> Hd]|[[-> Hd]|[[-> Hd]|[[-> Hd]|[-> Hd]]]]];
    repeat split; intros Hg; try discriminate Hg.
  - exact (detectHello_needs _ Hd).
  - exact (detectYes_needs _ _ Hd).
  - exact (detectNo_needs _ _ Hd).
  - exact (proj1 (detectHelp_needs _ _ Hd)).
Qed.

Lemma label_needs_history_witness :
  let n := length (Dynamic.getBuffer (Dynamic.mkBuffer (Samples.waveFrames 15) 30)) in
  5 <= n /\
  ("HELLO" = "HELLO" -> 15 <= n) /\ ("HELLO" = "YES" -> 9 <= n) /\
  ("HELLO" = "NO" -> 6 <= n) /\ ("HELLO" = "HELP" -> 6 <= n).
Proof.
  apply (label_needs_history (Dynamic.mkBuffer (Samples.waveFrames 15) 30) "HELLO").
  vm_compute. reflexivity.
Defined.

(** X19. "HELP" and "TIME" are only returned when the current (last) frame
    has at least two hands. *)
Theorem two_hand_labels_need_two_hands (b : Dynamic.GestureBuffer)
        (earlier : list Frame) (currentFrame : Frame) (g : string) :
  Dynamic.getBuffer b = earlier ++ [currentFrame] ->
  Dynamic.recognizeDynamicGesture b = Ok (Some g) ->
  g = "HELP" \/ g = "TIME" ->
  2 <= length currentFrame.
Proof.
  intros Hb H Hg.
  destruct (match_source b g H) as (_ & cf & Hcf & Hsrc).
  rewrite Hb, length_app, nth_error_app2 in Hcf by (simpl; lia).
  replace (length earlier + length [currentFrame] - 1 - length earlier) with 0 in Hcf
    by (simpl; lia).
  injection Hcf as <-.
  destruct Hsrc as [[-> Hd]|[[-> Hd]|[[-> Hd]|[[-> Hd]|[-> Hd]]]]];
    try (destruct Hg as [Hg|Hg]; discriminate Hg).
  - exact (proj2 (detectHelp_needs _ _ Hd)).
  - exact (detectTime_needs _ Hd).
Qed.

Lemma two_hand_labels_need_two_hands_witness :
  2 <= length MoreSamples.touchFrame.
Proof.
  apply (two_hand_labels_need_two_hands MoreSamples.touching
           (repeat MoreSamples.touchFrame 4) MoreSamples.touchFrame "TIME").
  - reflexivity.
  - vm_compute. reflexivity.
  - right. reflexivity.
Defined.

(** X20. When both the count of open-hand frames and the sample loop of
    HELLO complete, the number of wrist-X samples equals that count; so the
    test [wristXs.length > 10] of line 306 can never fail once
    [openHandCount > 14] has passed. *)
Theorem samples_equal_open_frames (recent : list Frame) (count : nat)
        (wristXs : list float) :
  Dynamic.openHandCount recent = Ok count ->
  Dynamic.collectWristXs recent = Ok wristXs ->
  length wristXs = count.
Proof. intros Hn Hx. exact (proj1 (samples_match_count recent count wristXs Hn Hx)). Qed.

Lemma samples_equal_open_frames_witness :
  length (map (fun i => if Nat.even i then 0.3 else 0.5)%float (seq 0 14)) = 14.
Proof.
  apply (samples_equal_open_frames (Dynamic.getBuffer Samples.wave14of20)).
  - vm_compute. reflexivity.
  - vm_compute. reflexivity.
Defined.

(** ** Dynamic gesture matcher: no throw on well-formed frames *)

Lemma someJ_total {A : Type} (p : A -> Result bool) (a : list A) :
  (forall e, In e a -> exists v, p e = Ok v) -> exists v, someJ p a = Ok v.
Proof.
  induction a as [|e rest IH]; intros Hp; cbn [someJ]; [eexists; reflexivity|].
  destruct (Hp e (or_introl eq_refl)) as [v Hv]. rewrite Hv. cbn [bind].
  destruct v; [eexists; reflexivity|].
  apply IH. intros e' He'. apply Hp. right. exact He'.
Qed.

Lemma filterJ_total {A : Type} (p : A -> Result bool) (a : list A) :
  (forall e, In e a -> exists v, p e = Ok v) ->
  exists kept, filterJ p a = Ok kept /\ (forall e, In e kept -> In e a).
Proof.
  induction a as [|e rest IH]; intros Hp; cbn [filterJ].
  - exists []. split; [reflexivity|]. intros e H. exact H.
  - destruct (Hp e (or_introl eq_refl)) as [v Hv]. rewrite Hv. cbn [bind].
    destruct IH as (kept & Hk & Hin); [intros e' He'; apply Hp; right; exact He'|].
    rewrite Hk. cbn [bind]. eexists. split; [reflexivity|].
    intros e' He'. destruct v; [destruct He' as [<-|He']|];
      [left; reflexivity|right; exact (Hin _ He')|right; exact (Hin _ He')].
Qed.

Lemma findJ_total {A : Type} (p : A -> Result bool) (a : list A) :
  (forall e, In e a -> exists v, p e = Ok v) ->
  exists r, findJ p a = Ok r /\ (forall e, r = Some e -> In e a).
Proof.
  induction a as [|e rest IH]; intros Hp; cbn [findJ].
  - exists None. split; [reflexivity|]. discriminate.
  - destruct (Hp e (or_introl eq_refl)) as [v Hv]. rewrite Hv. cbn [bind].
    destruct v.
    + eexists. split; [reflexivity|]. intros e' [= <-]. left. reflexivity.
    + destruct IH as (r & Hr & Hin); [intros e' He'; apply Hp; right; exact He'|].
      exists r. split; [exact Hr|]. intros e' He'. right. exact (Hin _ He').
Qed.

Lemma mapJ_total {A B : Type} (f : A -> Result B) (a : list A) :
  (forall e, In e a -> exists v, f e = Ok v) -> exists vs, mapJ f a = Ok vs.
Proof.
  induction a as [|e rest IH]; intros Hf; cbn [mapJ]; [eexists; reflexivity|].
  destruct (Hf e (or_introl eq_refl)) as [v Hv]. rewrite Hv. cbn [bind].
  destruct IH as [vs Hvs]; [intros e' He'; apply Hf; right; exact He'|].
  rewrite Hvs. eexists. reflexivity.
Qed.

Lemma forOf_total {A V : Type} (P : V -> Prop) (body : V -> A -> Result V)
      (a : list A) (acc : V) :
  P acc ->
  (forall acc0 e, P acc0 -> In e a -> exists acc1, body acc0 e = Ok acc1 /\ P acc1) ->
  exists r, forOf body a acc = Ok r /\ P r.
Proof.
  revert acc. induction a as [|e rest IH]; intros acc Hacc Hbody; cbn [forOf].
  - exists acc. split; [reflexivity|exact Hacc].
  - destruct (Hbody acc e Hacc (or_introl eq_refl)) as (acc1 & H1 & HP1).
    rewrite H1. cbn [bind]. apply IH; [exact HP1|].
    intros acc0 e' H0 He'. apply Hbody; [exact H0|right; exact He'].
Qed.

(** On a hand of at least 21 landmarks no helper throws. *)
Ltac hand_total h Hlen :=
  destruct_hand h Hlen;
  cbv beta delta [Dynamic.checkOpenHand Dynamic.checkYShape Dynamic.isFist
                  Dynamic.isFlat Dynamic.isPointing Dynamic.isTapPose
                  Dynamic.fingersApart];
  cbn [nth_error prop bind andJ orJ notJ Dynamic.dist Dynamic.isExtended Dynamic.above];
  repeat match goal with
         | |- context [if ?c then _ else _] =>
             destruct c;
             cbn [nth_error prop bind andJ orJ notJ negb
                  Dynamic.dist Dynamic.isExtended Dynamic.above]
         end;
  eexists; reflexivity.

Lemma checkOpenHand_total (h : Hand) :
  21 <= length h -> exists v, Dynamic.checkOpenHand h = Ok v.
Proof. intros Hlen. hand_total h Hlen. Qed.

Lemma checkYShape_total (h : Hand) :
  21 <= length h -> exists v, Dynamic.checkYShape h = Ok v.
Proof. intros Hlen. hand_total h Hlen. Qed.

Lemma isFist_total (h : Hand) :
  21 <= length h -> exists v, Dynamic.isFist h = Ok v.
Proof. intros Hlen. hand_total h Hlen. Qed.

Lemma isFlat_total (h : Hand) :
  21 <= length h -> exists v, Dynamic.isFlat h = Ok v.
Proof. intros Hlen. hand_total h Hlen. Qed.

Lemma isPointing_total (h : Hand) :
  21 <= length h -> exists v, Dynamic.isPointing h = Ok v.
Proof. intros Hlen. hand_total h Hlen. Qed.

Lemma isTapPose_total (h : Hand) :
  21 <= length h -> exists v, Dynamic.isTapPose h = Ok v.
Proof. intros Hlen. hand_total h Hlen. Qed.

Lemma fingersApart_total (h : Hand) :
  21 <= length h -> exists v, Dynamic.fingersApart h = Ok v.
Proof. intros Hlen. hand_total h Hlen. Qed.

Lemma wrist_total (f : NormalizedLandmark -> float) (h : Hand) :
  21 <= length h -> exists v, prop f (nth_error h 0) = Ok v.
Proof.
  intros Hlen. destruct h as [|w rest]; [simpl in Hlen; lia|].
  eexists. reflexivity.
Qed.

Lemma In_skipn {A : Type} (n : nat) (l : list A) (e : A) :
  In e (skipn n l) -> In e l.
Proof.
  intros H. rewrite <- (firstn_skipn n l). apply in_or_app. right. exact H.
Qed.

Lemma In_firstn {A : Type} (n : nat) (l : list A) (e : A) :
  In e (firstn n l) -> In e l.
Proof.
  intros H. rewrite <- (firstn_skipn n l). apply in_or_app. left. exact H.
Qed.

Lemma wellFormed_slice_last (k : nat) (frames : list Frame) :
  wellFormedFrames frames -> wellFormedFrames (JS.slice_last k frames).
Proof. intros H frame Hin. apply H. exact (In_skipn _ _ _ Hin). Qed.

Lemma wellFormed_slice_neg (i j : nat) (frames : list Frame) :
  wellFormedFrames frames -> wellFormedFrames (JS.slice_neg i j frames).
Proof.
  intros H frame Hin. apply H. unfold JS.slice_neg in Hin.
  exact (In_skipn _ _ _ (In_firstn _ _ _ Hin)).
Qed.

Lemma detectHello_total (frames : list Frame) :
  wellFormedFrames frames -> exists v, Dynamic.detectHello frames = Ok v.
Proof.
  intros Hwf. unfold Dynamic.detectHello, Dynamic.openHandCount.
  pose proof (wellFormed_slice_last 20 frames Hwf) as Hrecent.
  destruct (filterJ_total Dynamic.hasOpenHand (JS.slice_last 20 frames)) as (kept & Hk & _).
  { intros frame Hin. apply someJ_total. intros h Hh.
    exact (checkOpenHand_total h (Hrecent frame Hin h Hh)). }
  rewrite Hk. cbn [bind].
  destruct (14 <? length kept); [|eexists; reflexivity].
  unfold Dynamic.collectWristXs.
  destruct (forOf_total (fun _ => True) Dynamic.pushWristX (JS.slice_last 20 frames) [] I)
    as (wristXs & Hx & _).
  { intros acc frame _ Hin. unfold Dynamic.pushWristX.
    destruct (filterJ_total Dynamic.checkOpenHand frame) as (hands & Hh & Hsub).
    { intros h Hh. exact (checkOpenHand_total h (Hrecent frame Hin h Hh)). }
    rewrite Hh. cbn [bind]. destruct hands as [|first others]; [eexists; split; [reflexivity|exact I]|].
    destruct (wrist_total x first) as [wx Hwx].
    { apply (Hrecent frame Hin). apply Hsub. left. reflexivity. }
    rewrite Hwx. eexists. split; [reflexivity|exact I]. }
  rewrite Hx. cbn [bind].
  destruct (10 <? length wristXs); eexists; reflexivity.
Qed.

Lemma detectYes_total (frames : list Frame) (currentFrame : Frame) :
  wellFormedFrames frames -> wellFormedFrame currentFrame ->
  exists v, Dynamic.detectYes frames currentFrame = Ok v.
Proof.
  intros Hwf Hcur. unfold Dynamic.detectYes.
  destruct (findJ_total Dynamic.checkYShape currentFrame) as (yHand & Hy & _).
  { intros h Hh. exact (checkYShape_total h (Hcur h Hh)). }
  rewrite Hy. cbn [bind]. destruct yHand as [yHand|]; [|eexists; reflexivity].
  pose proof (wellFormed_slice_last 15 frames Hwf) as Hrecent.
  match goal with
  | |- context [forOf ?body ?l ?acc] =>
      destruct (forOf_total (fun hist : list Hand => forall h, In h hist -> 21 <= length h)
                            body l acc) as (hist & Hh & Hhist)
  end.
  { intros h []. }
  { intros acc frame Hacc Hin.
    destruct (findJ_total Dynamic.checkYShape frame) as (found & Hf & Hsub).
    { intros h Hh. exact (checkYShape_total h (Hrecent frame Hin h Hh)). }
    rewrite Hf. cbn [bind]. destruct found as [h|].
    - eexists. split; [reflexivity|]. intros h' Hh'.
      apply in_app_or in Hh'. destruct Hh' as [Hh'|[<-|[]]]; [exact (Hacc _ Hh')|].
      exact (Hrecent frame Hin h (Hsub h eq_refl)).
    - eexists. split; [reflexivity|exact Hacc]. }
  rewrite Hh. cbn [bind].
  destruct (8 <? length hist); [|eexists; reflexivity].
  destruct (mapJ_total (fun h : Hand => prop y (nth_error h 0)) hist) as [wristYs HY];
    [intros h Hin; exact (wrist_total y h (Hhist h Hin))|].
  destruct (mapJ_total (fun h : Hand => prop x (nth_error h 0)) hist) as [wristXs HX];
    [intros h Hin; exact (wrist_total x h (Hhist h Hin))|].
  rewrite HY. cbn [bind]. rewrite HX. cbn [bind]. eexists. reflexivity.
Qed.

Lemma detectNo_total (frames : list Frame) (currentFrame : Frame) :
  wellFormedFrames frames -> wellFormedFrame currentFrame ->
  exists v, Dynamic.detectNo frames currentFrame = Ok v.
Proof.
  intros Hwf Hcur. unfold Dynamic.detectNo.
  destruct (findJ_total Dynamic.isTapPose currentFrame) as (tapHand & Ht & _).
  { intros h Hh. exact (isTapPose_total h (Hcur h Hh)). }
  rewrite Ht. cbn [bind]. destruct tapHand as [tapHand|]; [|eexists; reflexivity].
  apply someJ_total. intros frame Hin. apply someJ_total. intros h Hh.
  exact (fingersApart_total h (wellFormed_slice_neg 15 5 frames Hwf frame Hin h Hh)).
Qed.

Lemma averageY_total (frame : Frame) :
  wellFormedFrame frame -> exists v, Dynamic.averageY frame = Ok v.
Proof.
  intros Hwf. unfold Dynamic.averageY.
  destruct (2 <=? length frame).
  - destruct (findJ_total Dynamic.isFist frame) as (fist & Hfist & Hfin);
      [intros h Hh; exact (isFist_total h (Hwf h Hh))|].
    destruct (findJ_total Dynamic.isFlat frame) as (flat & Hflat & Hlin);
      [intros h Hh; exact (isFlat_total h (Hwf h Hh))|].
    rewrite Hfist. cbn [bind]. rewrite Hflat. cbn [bind].
    assert (Hsum : exists v,
               (total <- forOf (fun sum (h : Hand) =>
                                  hy <- prop y (nth_error h 0) ;; Ok (sum + hy)%float)
                               frame zero ;;
                Ok (total / JS.of_nat (length frame))%float)%js = Ok v).
    { match goal with
      | |- context [forOf ?body ?l ?acc] =>
          destruct (forOf_total (fun _ => True) body l acc I) as (total & Ht & _)
      end.
      - intros acc h _ Hh. destruct (wrist_total y h (Hwf h Hh)) as [hy Hhy].
        rewrite Hhy. eexists. split; [reflexivity|exact I].
      - rewrite Ht. eexists. reflexivity. }
    destruct fist as [fist|]; [|exact Hsum].
    destruct flat as [flat|]; [|exact Hsum].
    destruct (wrist_total y fist (Hwf fist (Hfin fist eq_refl))) as [fy Hfy].
    destruct (wrist_total y flat (Hwf flat (Hlin flat eq_refl))) as [ly Hly].
    rewrite Hfy. cbn [bind]. rewrite Hly. eexists. reflexivity.
  - destruct (Nat.eqb_spec (length frame) 1) as [Hone|_]; [|eexists; reflexivity].
    destruct frame as [|h rest]; [discriminate Hone|]. cbn [nth_error].
    exact (wrist_total y h (Hwf h (or_introl eq_refl))).
Qed.

Lemma two_hands (frame : Frame) :
  2 <= length frame ->
  exists hand1 hand2, nth_error frame 0 = Some hand1 /\ nth_error frame 1 = Some hand2
                      /\ In hand1 frame /\ In hand2 frame.
Proof.
  intros Hlen. destruct frame as [|hand1 [|hand2 rest]]; try (simpl in Hlen; lia).
  exists hand1, hand2. simpl. tauto.
Qed.

Lemma detectHelp_total (frames : list Frame) (currentFrame : Frame) :
  wellFormedFrames frames -> wellFormedFrame currentFrame ->
  exists v, Dynamic.detectHelp frames currentFrame = Ok v.
Proof.
  intros Hwf Hcur. unfold Dynamic.detectHelp.
  destruct (Nat.leb_spec 2 (length currentFrame)) as [Htwo|_]; [|eexists; reflexivity].
  destruct (two_hands currentFrame Htwo) as (hand1 & hand2 & H1 & H2 & Hin1 & Hin2).
  rewrite H1, H2.
  pose proof (Hcur hand1 Hin1) as Hw1. pose proof (Hcur hand2 Hin2) as Hw2.
  assert (Hrest : forall fistHand flatHand,
             21 <= length fistHand -> 21 <= length flatHand ->
             exists v,
               (dProximity <- Dynamic.dist (nth_error fistHand 0) (nth_error flatHand 9) ;;
                if JS.lt dProximity 0.15 then
                  avgYs <- mapJ Dynamic.averageY (JS.slice_last 10 frames) ;;
                  if 5 <? length avgYs then
                    Ok (JS.gt (nth 0 avgYs zero - nth (length avgYs - 1) avgYs zero) 0.1)
                  else Ok false
                else Ok false)%js = Ok v).
  { intros fistHand flatHand Hf Hl.
    destruct_hand fistHand Hf. destruct_hand flatHand Hl.
    cbn [nth_error prop bind Dynamic.dist].
    destruct (JS.lt _ 0.15); [|eexists; reflexivity].
    destruct (mapJ_total Dynamic.averageY (JS.slice_last 10 frames)) as [avgYs Ha].
    { intros frame Hin. apply averageY_total.
      exact (wellFormed_slice_last 10 frames Hwf frame Hin). }
    rewrite Ha. cbn [bind]. destruct (5 <? length avgYs); eexists; reflexivity. }
  destruct (isFist_total hand1 Hw1) as [f1 Hf1].
  destruct (isFlat_total hand2 Hw2) as [l2 Hl2].
  destruct (isFist_total hand2 Hw2) as [f2 Hf2].
  destruct (isFlat_total hand1 Hw1) as [l1 Hl1].
  rewrite Hf1, Hl2, Hf2, Hl1. cbn [andJ bind].
  destruct f1; [destruct l2|]; cbn [bind];
    try exact (Hrest _ _ Hw1 Hw2);
    (destruct f2; [destruct l1|]; cbn [bind];
     [exact (Hrest _ _ Hw2 Hw1)|eexists; reflexivity|eexists; reflexivity]).
Qed.

Lemma detectTime_total (currentFrame : Frame) :
  wellFormedFrame currentFrame -> exists v, Dynamic.detectTime currentFrame = Ok v.
Proof.
  intros Hcur. unfold Dynamic.detectTime.
  destruct (Nat.leb_spec 2 (length currentFrame)) as [Htwo|_]; [|eexists; reflexivity].
  destruct (two_hands currentFrame Htwo) as (hand1 & hand2 & H1 & H2 & Hin1 & Hin2).
  rewrite H1, H2.
  pose proof (Hcur hand1 Hin1) as Hw1. pose proof (Hcur hand2 Hin2) as Hw2.
  assert (Hrest : forall pointerHand targetHand,
             21 <= length pointerHand -> 21 <= length targetHand ->
             exists v,
               (dTouch <- Dynamic.dist (nth_error pointerHand 8) (nth_error targetHand 0) ;;
                Ok (JS.lt dTouch 0.1))%js = Ok v).
  { intros pointerHand targetHand Hp Ht.
    destruct_hand pointerHand Hp. destruct_hand targetHand Ht.
    eexists. reflexivity. }
  destruct (isPointing_total hand1 Hw1) as [p1 Hp1].
  destruct (isPointing_total hand2 Hw2) as [p2 Hp2].
  rewrite Hp1, Hp2. cbn [bind].
  destruct p1; cbn [bind]; [exact (Hrest _ _ Hw1 Hw2)|].
  destruct p2; cbn [bind]; [exact (Hrest _ _ Hw2 Hw1)|eexists; reflexivity].
Qed.

(** X21. If every hand of every buffered frame has at least 21 landmarks,
    the matcher does not throw: it returns a label or null. *)
Theorem wellFormed_buffer_never_throws (b : Dynamic.GestureBuffer) :
  wellFormedFrames (Dynamic.getBuffer b) ->
  exists r : option string, Dynamic.recognizeDynamicGesture b = Ok r.
Proof.
  intros Hwf. unfold Dynamic.recognizeDynamicGesture.
  destruct (Nat.ltb_spec (length (Dynamic.getBuffer b)) 5) as [_|Hlen];
    [eexists; reflexivity|].
  destruct (nth_error (Dynamic.getBuffer b) (length (Dynamic.getBuffer b) - 1))
    as [currentFrame|] eqn:Hcf.
  2:{ apply nth_error_None in Hcf. lia. }
  assert (Hcur : wellFormedFrame currentFrame)
    by (apply Hwf; exact (nth_error_In _ _ Hcf)).
  destruct (length currentFrame =? 0); [eexists; reflexivity|].
  destruct (detectHello_total _ Hwf) as [hello ->]. cbn [bind].
  destruct hello; [eexists; reflexivity|].
  destruct (detectYes_total _ _ Hwf Hcur) as [yes ->]. cbn [bind].
  destruct yes; [eexists; reflexivity|].
  destruct (detectNo_total _ _ Hwf Hcur) as [no ->]. cbn [bind].
  destruct no; [eexists; reflexivity|].
  destruct (detectHelp_total _ _ Hwf Hcur) as [help ->]. cbn [bind].
  destruct help; [eexists; reflexivity|].
  destruct (detectTime_total _ Hcur) as [time ->]. cbn [bind].
  destruct time; eexists; reflexivity.
Qed.

Lemma wellFormed_buffer_never_throws_witness :
  exists r : option string, Dynamic.recognizeDynamicGesture MoreSamples.touching = Ok r.
Proof.
  apply wellFormed_buffer_never_throws.
  intros frame Hframe h Hh. apply repeat_spec in Hframe. subst frame.
  destruct Hh as [<-|[<-|[]]]; vm_compute; lia.
Defined.

(** A hand with too few landmarks in the current frame makes the matcher
    throw. *)
Example malformed_frame_throws :
  Dynamic.recognizeDynamicGesture
    (Dynamic.mkBuffer (repeat [MoreSamples.stump] 5) 30) = TypeError.
Proof. vm_compute. reflexivity. Qed.

(** ** The hand-tracking loop of ActionGame *)

Lemma add_contents (frame : Frame) (b : Dynamic.GestureBuffer) :
  Dynamic.maxSize (Dynamic.add frame b) = Dynamic.maxSize b
  /\ length (Dynamic.buffer (Dynamic.add frame b)) <= S (length (Dynamic.buffer b))
  /\ (forall f, In f (Dynamic.buffer (Dynamic.add frame b)) ->
                In f (Dynamic.buffer b) \/ f = frame).
Proof.
  unfold Dynamic.add.
  destruct (_ <? _)%Z; cbn [Dynamic.maxSize Dynamic.buffer];
    (split; [reflexivity|split]).
  - destruct (Dynamic.buffer b) as [|oldest others]; simpl; [lia|].
    rewrite length_app. simpl. lia.
  - intros f Hf.
    assert (Hin : In f (Dynamic.buffer b ++ [frame])).
    { destruct (Dynamic.buffer b ++ [frame]) as [|oldest others]; [exact Hf|].
      right. exact Hf. }
    apply in_app_or in Hin. destruct Hin as [Hin|[<-|[]]]; [left; exact Hin|right; reflexivity].
  - rewrite length_app. simpl. lia.
  - intros f Hin. apply in_app_or in Hin.
    destruct Hin as [Hin|[<-|[]]]; [left; exact Hin|right; reflexivity].
Qed.

Lemma onLandmarks_buffer (landmarks : Frame) (s : ActionGame.Tracking) :
  ActionGame.gestureBuffer (snd (ActionGame.onLandmarks landmarks s))
  = if 0 <? length landmarks
    then Dynamic.add landmarks (ActionGame.gestureBuffer s)
    else ActionGame.gestureBuffer s.
Proof.
  unfold ActionGame.onLandmarks. destruct (0 <? length landmarks); [|reflexivity].
  destruct (Dynamic.recognizeDynamicGesture _) as [[dynamic|]|]; try reflexivity.
  destruct (String.eqb dynamic ""); reflexivity.
Qed.

Lemma run_invariant (P : ActionGame.Tracking -> Prop) (results : list Frame)
      (s : ActionGame.Tracking) :
  (forall landmarks s0, P s0 -> P (snd (ActionGame.onLandmarks landmarks s0))) ->
  P s -> P (ActionGame.run results s).
Proof.
  intros Hstep. revert s. induction results as [|landmarks rest IH]; intros s Hs;
    cbn [ActionGame.run]; [exact Hs|].
  pose proof (Hstep landmarks s Hs) as Hnext.
  destruct (ActionGame.onLandmarks landmarks s) as [[u|] s']; cbn [snd] in Hnext;
    [exact (IH s' Hnext)|exact Hnext].
Qed.

(** X22. In ActionGame's loop the buffer never holds more than 30 frames and
    never a frame without hands, whatever the detector delivers; so the
    matcher's test for an empty current frame (line 256) cannot fire there. *)
Theorem actionGame_buffer_invariant (results : list Frame) :
  let b := ActionGame.gestureBuffer (ActionGame.run results ActionGame.initial) in
  length (Dynamic.getBuffer b) <= 30
  /\ forall frame, In frame (Dynamic.getBuffer b) -> frame <> [].
Proof.
  cbv zeta. unfold Dynamic.getBuffer.
  pose (P := fun s : ActionGame.Tracking =>
               Dynamic.maxSize (ActionGame.gestureBuffer s) = 30%Z
               /\ length (Dynamic.buffer (ActionGame.gestureBuffer s)) <= 30
               /\ forall frame, In frame (Dynamic.buffer (ActionGame.gestureBuffer s)) ->
                                frame <> []).
  assert (HP : P (ActionGame.run results ActionGame.initial)).
  { apply run_invariant.
    - intros landmarks s (Hmax & Hlen & Hne). unfold P.
      rewrite onLandmarks_buffer.
      destruct (Nat.ltb_spec 0 (length landmarks)) as [Hhands|_];
        [|split; [exact Hmax|split; [exact Hlen|exact Hne]]].
      destruct (add_contents landmarks (ActionGame.gestureBuffer s)) as (Hm & _ & Hin).
      split; [rewrite Hm; exact Hmax|]. split.
      + pose proof (add_length_bound landmarks (ActionGame.gestureBuffer s)) as Hb.
        rewrite Hmax in Hb. lia.
      + intros frame Hf. destruct (Hin frame Hf) as [Hold| ->]; [exact (Hne frame Hold)|].
        intros ->. simpl in Hhands. lia.
    - unfold P. cbn. split; [reflexivity|]. split; [lia|]. intros frame []. }
  destruct HP as (_ & Hlen & Hne). split; assumption.
Qed.

(** X23. In ActionGame's loop [detectedAction] keeps its initial value
    "NONE" as long as fewer than 5 detection results with at least one hand
    have arrived. *)
Theorem actionGame_needs_five_frames (results : list Frame) :
  length (filter (fun landmarks : Frame => 0 <? length landmarks) results) < 5 ->
  ActionGame.detectedAction (ActionGame.run results ActionGame.initial) = "NONE".
Proof.
  assert (Hgen : forall s,
             length (Dynamic.buffer (ActionGame.gestureBuffer s))
             + length (filter (fun landmarks : Frame => 0 <? length landmarks) results) < 5 ->
             ActionGame.detectedAction s = "NONE" ->
             ActionGame.detectedAction (ActionGame.run results s) = "NONE").
  { induction results as [|landmarks rest IH]; intros s Hfew Hnone;
      cbn [ActionGame.run]; [exact Hnone|].
    cbn [filter] in Hfew. unfold ActionGame.onLandmarks.
    destruct (0 <? length landmarks).
    - cbn [length] in Hfew.
      destruct (add_contents landmarks (ActionGame.gestureBuffer s)) as (_ & Hlen & _).
      unfold Dynamic.recognizeDynamicGesture, Dynamic.getBuffer.
      destruct (Nat.ltb_spec
                  (length (Dynamic.buffer (Dynamic.add landmarks (ActionGame.gestureBuffer s))))
                  5) as [_|Hge]; [|exfalso; unfold Frame in *; lia].
      apply IH; cbn [ActionGame.gestureBuffer ActionGame.detectedAction];
        [unfold Frame in *; lia|exact Hnone].
    - apply IH; assumption. }
  intros Hfew. apply Hgen; [exact Hfew|reflexivity].
Qed.

Lemma actionGame_needs_five_frames_witness :
  ActionGame.detectedAction
    (ActionGame.run [MoreSamples.touchFrame; []; MoreSamples.touchFrame; [];
                     MoreSamples.touchFrame; MoreSamples.touchFrame; []]
                    ActionGame.initial) = "NONE".
Proof. apply actionGame_needs_five_frames. vm_compute. lia. Defined.

(** The fifth frame with hands can already give a match. *)
Example actionGame_fifth_frame :
  ActionGame.detectedAction
    (ActionGame.run (repeat MoreSamples.touchFrame 5) ActionGame.initial) = "TIME".
Proof. vm_compute. reflexivity. Qed.
